(** * binance-rest-client: request canonicalisation, dispatch and k-line fetching

    A shallow embedding of [binanceRestClient/client.py] and
    [binanceRestClient/async_tools.py], followed by the properties of the
    parameter canonicaliser, the request dispatcher, the batch series fetcher
    and the series reconstructor.

    Conventions of the embedding:
    - a Python [dict] with string keys is an association list in insertion
      order with unique keys ([dict]); the dictionary operations below keep
      that invariant;
    - Python [float] is the primitive binary64 [float] of the Standard
      Library; [int] is [Z];
    - a function that can raise returns a [result];
    - library calls whose outcome the program does not decide (the network,
      the clock, HMAC-SHA256, [repr] of floats and strings, [float(str)]) are
      inputs of the model. *)

From Stdlib Require Import ZArith List String Ascii Bool Lia Floats.
From Stdlib Require Import Sorted Permutation DecimalString.
Import ListNotations.

Set Warnings "-register-all,-inexact-float".

Local Open Scope string_scope.
Local Open Scope list_scope.
Local Open Scope Z_scope.

(** ** Exceptions and results *)

Inductive exn : Type :=
| KeyError (key : string)
| IndexError
| TypeError
| ValueError (msg : string)
| AttributeError
| ZeroDivisionError
| OverflowError
| AlreadyStoppedError
| BinanceAPIException_msg (msg : string)
| BinanceAPIException_response (status_code : Z) (text : string)
| BinanceRequestException (msg : string).

Inductive result (A : Type) : Type :=
| Ok (a : A)
| Raise (e : exn).

Arguments Ok {A} a.
Arguments Raise {A} e.

Definition bind {A B : Type} (r : result A) (k : A -> result B) : result B :=
  match r with
  | Ok a => k a
  | Raise e => Raise e
  end.

Notation "x <- c ;; k" := (bind c (fun x => k))
  (at level 61, c at next level, right associativity).
Notation "' p <- c ;; k" := (bind c (fun p => k))
  (at level 61, p pattern, c at next level, right associativity).

Definition raises {A : Type} (r : result A) : bool :=
  match r with Ok _ => false | Raise _ => true end.

(** ** Python values *)

Inductive pyval : Type :=
| VNone
| VBool (b : bool)
| VInt (z : Z)
| VFloat (f : float)
| VStr (s : string)
| VList (l : list pyval)
| VTuple (l : list pyval)
| VDict (d : list (string * pyval)).

(** Insertion-ordered dictionaries with string keys. *)
Definition dict (V : Type) : Type := list (string * V).

Section Dict.
Context {V : Type}.

Fixpoint dict_get (d : dict V) (k : string) : option V :=
  match d with
  | [] => None
  | (k', v) :: d' => if String.eqb k' k then Some v else dict_get d' k
  end.

Definition dict_mem (d : dict V) (k : string) : bool :=
  match dict_get d k with Some _ => true | None => false end.

(** [d[k] = v]: an existing key keeps its position, a new key goes last. *)
Fixpoint dict_set (d : dict V) (k : string) (v : V) : dict V :=
  match d with
  | [] => [(k, v)]
  | (k', v') :: d' =>
      if String.eqb k' k then (k', v) :: d' else (k', v') :: dict_set d' k v
  end.

(** [del d[k]] on a key that is present. *)
Fixpoint dict_del (d : dict V) (k : string) : dict V :=
  match d with
  | [] => []
  | (k', v') :: d' =>
      if String.eqb k' k then d' else (k', v') :: dict_del d' k
  end.

(** [d.pop(k)]: [None] stands for the [KeyError]. *)
Definition dict_pop (d : dict V) (k : string) : option (V * dict V) :=
  match dict_get d k with
  | Some v => Some (v, dict_del d k)
  | None => None
  end.

(** [d.update(other)]. *)
Definition dict_update (d other : dict V) : dict V :=
  fold_left (fun acc kv => dict_set acc (fst kv) (snd kv)) other d.

Definition keys (d : dict V) : list string := map fst d.
End Dict.

(** Truth value of an object ([bool(v)]). *)
Definition py_truthy (v : pyval) : bool :=
  match v with
  | VNone => false
  | VBool b => b
  | VInt z => negb (z =? 0)%Z
  | VFloat f => negb (PrimFloat.eqb f 0%float)
  | VStr s => negb (String.eqb s "")
  | VList l | VTuple l => match l with [] => false | _ => true end
  | VDict d => match d with [] => false | _ => true end
  end.

Definition is_none (v : pyval) : bool :=
  match v with VNone => true | _ => false end.

(** ** Strings *)

Definition string_of_Z (z : Z) : string := NilZero.string_of_int (Z.to_int z).

(** [s in t] on strings. *)
Fixpoint contains (s t : string) : bool :=
  String.prefix s t ||
  match t with
  | EmptyString => false
  | String _ t' => contains s t'
  end.

(** [s.split(sep)[0]] for a one-character separator. *)
Fixpoint split_head (sep : ascii) (s : string) : string :=
  match s with
  | EmptyString => EmptyString
  | String c s' => if Ascii.eqb c sep then EmptyString else String c (split_head sep s')
  end.

(** [s.replace(c, "")] for a one-character [c]. *)
Fixpoint remove_char (c : ascii) (s : string) : string :=
  match s with
  | EmptyString => EmptyString
  | String c' s' => if Ascii.eqb c' c then remove_char c s' else String c' (remove_char c s')
  end.

Definition chars (s : string) : list string :=
  map (fun c => String c EmptyString) (list_ascii_of_string s).

(** ** Numbers

    Python floats are IEEE binary64 and every arithmetic operation rounds to
    nearest, ties to even; so do the primitive floats. *)

(** The double nearest to [(-1)^sign * p / q], for [0 <= p] and [0 < q];
    [infinity] when the quotient is beyond the largest double. *)
Definition float_of_ratio (sign : bool) (p q : Z) : float :=
  let '(mz, ez, lz) := SFdiv_core_binary prec emax p 0 q 0 in
  SF2Prim (binary_round_aux prec emax sign mz ez lz).

(** Conversion of an [int] operand to [float]. *)
Definition float_of_Z (z : Z) : result float :=
  let f := float_of_ratio (z <? 0) (Z.abs z) 1 in
  if is_infinity f then Raise OverflowError else Ok f.

(** [int(f)]: truncation towards zero. *)
Definition Z_of_float (f : float) : result Z :=
  match Prim2SF f with
  | S754_zero _ => Ok 0
  | S754_nan => Raise (ValueError "cannot convert float NaN to integer")
  | S754_infinity _ => Raise OverflowError
  | S754_finite s m e =>
      let a := if 0 <=? e then Zpos m * 2 ^ e else Zpos m / 2 ^ (- e) in
      Ok (if s then - a else a)
  end.

(** [p / q] rounded to the nearest integer, ties to even ([0 <= p], [0 < q]). *)
Definition round_half_even (p q : Z) : Z :=
  let n := p / q in
  match 2 * (p mod q) ?= q with
  | Lt => n
  | Gt => n + 1
  | Eq => if Z.even n then n else n + 1
  end.

(** A finite float rounded to the nearest integer, ties to even. *)
Definition rint (f : float) : Z :=
  match Prim2SF f with
  | S754_finite s m e =>
      let a := round_half_even (Zpos m * 2 ^ Z.max e 0) (2 ^ Z.max (- e) 0) in
      if s then - a else a
  | _ => 0
  end.

(** [round(f, 9)] on a float: the exact value is rounded to nine decimals
    (ties to even) and the decimal is converted back to the nearest double;
    infinities, NaN and zeros round to themselves. *)
Definition round9 (f : float) : float :=
  match Prim2SF f with
  | S754_finite s m e =>
      let n := round_half_even (Zpos m * 10 ^ 9 * 2 ^ Z.max e 0) (2 ^ Z.max (- e) 0) in
      float_of_ratio s n (10 ^ 9)
  | _ => f
  end.

Inductive number : Type :=
| NInt (z : Z)
| NFloat (f : float).

Definition as_number (v : pyval) : result number :=
  match v with
  | VBool b => Ok (NInt (if b then 1 else 0))
  | VInt z => Ok (NInt z)
  | VFloat f => Ok (NFloat f)
  | _ => Raise TypeError
  end.

Definition to_float (n : number) : result float :=
  match n with
  | NInt z => float_of_Z z
  | NFloat f => Ok f
  end.

(** [a / b]. *)
Definition py_truediv (a b : pyval) : result pyval :=
  x <- as_number a ;;
  y <- as_number b ;;
  match x, y with
  | NInt p, NInt q =>
      if (q =? 0)%Z then Raise ZeroDivisionError
      else
        let f := float_of_ratio (xorb (p <? 0) (q <? 0)) (Z.abs p) (Z.abs q) in
        if is_infinity f then Raise OverflowError else Ok (VFloat f)
  | _, _ =>
      fx <- to_float x ;;
      fy <- to_float y ;;
      if PrimFloat.eqb fy 0%float then Raise ZeroDivisionError
      else Ok (VFloat (fx / fy)%float)
  end.

(** [round(v, 9)]. *)
Definition py_round9 (v : pyval) : result pyval :=
  match v with
  | VFloat f => Ok (VFloat (round9 f))
  | VInt z => Ok (VInt z)
  | VBool b => Ok (VInt (if b then 1 else 0))
  | _ => Raise TypeError
  end.

(** ** Sequences *)

(** [len(v)]. *)
Definition py_len (v : pyval) : result Z :=
  match v with
  | VStr s => Ok (Z.of_nat (String.length s))
  | VList l | VTuple l => Ok (Z.of_nat (List.length l))
  | VDict d => Ok (Z.of_nat (List.length d))
  | _ => Raise TypeError
  end.

(** [iter(v)], run to the end. *)
Definition py_iter (v : pyval) : result (list pyval) :=
  match v with
  | VStr s => Ok (map VStr (chars s))
  | VList l | VTuple l => Ok l
  | VDict d => Ok (map (fun kv => VStr (fst kv)) d)
  | _ => Raise TypeError
  end.

(** [v[i]] for an index [0 <= i]. *)
Definition py_getitem (v : pyval) (i : nat) : result pyval :=
  match v with
  | VStr s =>
      match nth_error (chars s) i with
      | Some c => Ok (VStr c)
      | None => Raise IndexError
      end
  | VList l | VTuple l =>
      match nth_error l i with
      | Some x => Ok x
      | None => Raise IndexError
      end
  | VDict _ => Raise (KeyError (string_of_Z (Z.of_nat i)))
  | _ => Raise TypeError
  end.

(** [v[:n]] for [0 <= n]; a dict does not take a slice. *)
Definition py_slice_to (v : pyval) (n : nat) : result pyval :=
  match v with
  | VStr s => Ok (VStr (String.substring 0 n s))
  | VList l => Ok (VList (firstn n l))
  | VTuple l => Ok (VTuple (firstn n l))
  | _ => Raise TypeError
  end.

(** ** The interpreter and the libraries

    What the model takes from outside the repository. *)
Record runtime : Type := {
  (** [hmac.new(key, msg, hashlib.sha256).hexdigest()] *)
  hmac_sha256_hex : string -> string -> string;
  (** [repr] of a float and of a string *)
  repr_float : float -> string;
  repr_str : string -> string;
  (** [float(s)] on a string; [None] is the [ValueError] *)
  float_of_str : string -> option float
}.

Section Render.
Variable rt : runtime.

Fixpoint py_repr (v : pyval) : string :=
  match v with
  | VNone => "None"
  | VBool true => "True"
  | VBool false => "False"
  | VInt z => string_of_Z z
  | VFloat f => repr_float rt f
  | VStr s => repr_str rt s
  | VList l => ("[" ++ String.concat ", " (map py_repr l) ++ "]")%string
  | VTuple l =>
      match l with
      | [x] => ("(" ++ py_repr x ++ ",)")%string
      | _ => ("(" ++ String.concat ", " (map py_repr l) ++ ")")%string
      end
  | VDict d =>
      ("{" ++ String.concat ", "
                (map (fun kv => let '(k, x) := kv in
                                (repr_str rt k ++ ": " ++ py_repr x)%string) d)
           ++ "}")%string
  end.

(** [str(v)], which is what ["{}".format(v)] and ["%s" % v] render. *)
Definition py_str (v : pyval) : string :=
  match v with
  | VStr s => s
  | _ => py_repr v
  end.

(** [float(v)]. *)
Definition py_float (v : pyval) : result float :=
  match v with
  | VFloat f => Ok f
  | VInt z => float_of_Z z
  | VBool b => Ok (if b then 1%float else 0%float)
  | VStr s =>
      match float_of_str rt s with
      | Some f => Ok f
      | None => Raise (ValueError "could not convert string to float")
      end
  | _ => Raise TypeError
  end.
End Render.

(** ** client.py: [BinanceRestClient] *)

Module BinanceRestClient.

(** What the dispatcher reads of a [requests.Response]: the status code,
    the body, and the outcome of [response.json()] ([None] when the body
    does not decode, which raises a [ValueError]). *)
Record response : Type := {
  status_code : Z;
  text : string;
  json : option pyval
}.

(** The attributes of an instance that [_request] reads or writes. *)
Record t : Type := {
  sigterm : bool;
  api_key : pyval;
  api_secret : pyval;
  requests_params : option (dict pyval);
  ts_offset : Z;
  last_response : option response
}.

(** [list.sort(key=itemgetter(0))]: a stable sort on the keys, which
    compares strings with [<]. *)
Fixpoint insert_by_key (x : string * pyval) (l : list (string * pyval))
  : list (string * pyval) :=
  match l with
  | [] => [x]
  | y :: l' =>
      if String.ltb (fst y) (fst x) then y :: insert_by_key x l'
      else x :: y :: l'
  end.

Definition sort_by_key (l : list (string * pyval)) : list (string * pyval) :=
  fold_right insert_by_key [] l.

(** The loop of [_order_params] over [data.items()], on the pair
    [(has_signature, params)]. *)
Definition collect_params (data : dict pyval) : bool * list (string * pyval) :=
  fold_left
    (fun st kv =>
       if String.eqb (fst kv) "signature" then (true, snd st)
       else (fst st, snd st ++ [kv]))
    data (false, []).

Definition _order_params (data : dict pyval) : result (list (string * pyval)) :=
  let '(has_signature, params) := collect_params data in
  let params := sort_by_key params in
  if has_signature then
    match dict_get data "signature" with
    | Some v => Ok (params ++ [("signature", v)])
    | None => Raise (KeyError "signature")
    end
  else Ok params.

Section WithRuntime.
Variable rt : runtime.

(** ["{}={}".format(d[0], d[1])], also ["%s=%s" % (d[0], d[1])]. *)
Definition render_param (d : string * pyval) : string :=
  (fst d ++ "=" ++ py_str rt (snd d))%string.

(** ["&".join(...)] over the rendered parameters. *)
Definition render_params (l : list (string * pyval)) : string :=
  String.concat "&" (map render_param l).

(** The local [query_string] of [_generate_signature]: the string that
    is signed. *)
Definition query_string (data : dict pyval) : result string :=
  order_data <- _order_params data ;;
  Ok (render_params order_data).

Definition _generate_signature (self : t) (data : dict pyval) : result string :=
  if negb (py_truthy (api_secret self)) then
    Raise (BinanceAPIException_msg "Api secret not configured")
  else
    qs <- query_string data ;;
    match api_secret self with
    | VStr secret => Ok (hmac_sha256_hex rt secret qs)
    | _ => Raise AttributeError
    end.
End WithRuntime.

Definition _handle_response (throw_exception : bool) (r : response) : result pyval :=
  if throw_exception && negb ((200 <=? status_code r) && (status_code r <? 300)) then
    Raise (BinanceAPIException_response (status_code r) (text r))
  else
    match json r with
    | Some v => Ok v
    | None => Raise (BinanceRequestException ("Invalid Response: " ++ text r))
    end.

(** [kwargs.pop("api_key")] then [kwargs.pop("api_secret")] under one
    [try]: a missing key sets both to [None], and what was popped before
    the [KeyError] stays popped. *)
Definition pop_credentials (kwargs : dict pyval) : pyval * pyval * dict pyval :=
  match dict_pop kwargs "api_key" with
  | None => (VNone, VNone, kwargs)
  | Some (k, kwargs1) =>
      match dict_pop kwargs1 "api_secret" with
      | None => (VNone, VNone, kwargs1)
      | Some (s, kwargs2) => (k, s, kwargs2)
      end
  end.

(** [kwargs.update(v)] for an object [v]: a mapping, or a sequence of
    key/value pairs.  An element of the sequence is read as a sequence of
    length two, whatever its type: a list or a tuple [[k, v]], a string of
    two characters, a dict with two keys (which gives its keys).  A key that
    is not a string cannot be a keyword of the session call; the model
    raises [TypeError] for it at once. *)
Definition as_pair (item : pyval) : result (string * pyval) :=
  match item with
  | VList [k; v] | VTuple [k; v] =>
      match k with
      | VStr s => Ok (s, v)
      | _ => Raise TypeError
      end
  | VStr (String a (String b EmptyString)) =>
      Ok (String a EmptyString, VStr (String b EmptyString))
  | VDict [(k1, _); (k2, _)] => Ok (k1, VStr k2)
  | VList _ | VTuple _ | VStr _ | VDict _ =>
      Raise (ValueError "dictionary update sequence element has the wrong length")
  | _ => Raise TypeError
  end.

Fixpoint update_pairs (kwargs : dict pyval) (l : list pyval) : result (dict pyval) :=
  match l with
  | [] => Ok kwargs
  | item :: l' =>
      match as_pair item with
      | Ok (k, v) => update_pairs (dict_set kwargs k v) l'
      | Raise e => Raise e
      end
  end.

Definition kwargs_update (kwargs : dict pyval) (v : pyval) : result (dict pyval) :=
  match v with
  | VDict d => Ok (dict_update kwargs d)
  | VList l | VTuple l => update_pairs kwargs l
  | VStr s => update_pairs kwargs (map VStr (chars s))
  | _ => Raise TypeError
  end.

(** The indices [null_args], collected over [enumerate(kwargs["data"])],
    and their deletion from the last to the first. *)
Fixpoint null_args_from (i : nat) (l : list (string * pyval)) : list nat :=
  match l with
  | [] => []
  | (_, value) :: l' =>
      if is_none value then i :: null_args_from (S i) l'
      else null_args_from (S i) l'
  end.

Definition null_args (l : list (string * pyval)) : list nat := null_args_from 0 l.

Fixpoint delete_at {A : Type} (i : nat) (l : list A) : list A :=
  match l, i with
  | [], _ => []
  | _ :: l', O => l'
  | x :: l', S i' => x :: delete_at i' l'
  end.

Definition drop_null_args (l : list (string * pyval)) : list (string * pyval) :=
  fold_left (fun acc i => delete_at i acc) (rev (null_args l)) l.

Definition as_tuples (l : list (string * pyval)) : pyval :=
  VList (map (fun kv => VTuple [VStr (fst kv); snd kv]) l).

Definition set_credentials (self : t) (k s : pyval) : t :=
  {| sigterm := sigterm self; api_key := k; api_secret := s;
     requests_params := requests_params self; ts_offset := ts_offset self;
     last_response := last_response self |}.

Definition set_response (self : t) (r : response) : t :=
  {| sigterm := sigterm self; api_key := api_key self; api_secret := api_secret self;
     requests_params := requests_params self; ts_offset := ts_offset self;
     last_response := Some r |}.

Section Request.
Variable rt : runtime.

(** Lines 172-188: per-call credentials. *)
Definition rotate_credentials (self : t) (kwargs : dict pyval) : t * dict pyval :=
  let '(k, s, kwargs) := pop_credentials kwargs in
  if py_truthy k && py_truthy s then (set_credentials self k s, kwargs)
  else (self, kwargs).

(** Lines 190-195: the default timeout, then the standing parameters. *)
Definition apply_defaults (self : t) (kwargs : dict pyval) : dict pyval :=
  let kwargs := dict_set kwargs "timeout" (VInt 10) in
  match requests_params self with
  | Some ((_ :: _) as rp) => dict_update kwargs rp
  | _ => kwargs
  end.

(** Lines 197-204.  The result is [kwargs], the object the local [data]
    names, and whether [kwargs["data"]] is still that same object: the
    nested [requests_params] are popped out of the shared dict, and an
    update that carries a ["data"] key rebinds [kwargs["data"]] to
    another object. *)
Definition merge_nested_params (kwargs : dict pyval)
  : result (dict pyval * pyval * bool) :=
  let data := match dict_get kwargs "data" with Some v => v | None => VNone end in
  match data with
  | VDict ((_ :: _) as d) =>
      match dict_pop d "requests_params" with
      | Some (rp, d') =>
          kwargs' <- kwargs_update (dict_set kwargs "data" (VDict d')) rp ;;
          let rebound :=
            match rp with
            | VDict r => dict_mem r "data"
            | VList l | VTuple l =>
                existsb (fun p => match as_pair p with
                                  | Ok (k, _) => String.eqb k "data"
                                  | Raise _ => false
                                  end) l
            | _ => false
            end in
          Ok (kwargs', VDict d', negb rebound)
      | None => Ok (kwargs, data, true)
      end
  | _ => Ok (kwargs, data, true)
  end.

(** Lines 206-209: timestamp and signature, written into the dict that
    [kwargs["data"]] names; [data] sees them when it is the same
    object. *)
Definition sign_request (self : t) (ts : Z) (kwargs : dict pyval)
           (data : pyval) (aliased : bool) : result (dict pyval * pyval) :=
  match dict_get kwargs "data" with
  | None => Raise (KeyError "data")
  | Some (VDict d) =>
      let d1 := dict_set d "timestamp" (VInt (ts + ts_offset self)) in
      signature <- _generate_signature rt self d1 ;;
      let d2 := VDict (dict_set d1 "signature" (VStr signature)) in
      Ok (dict_set kwargs "data" d2, if aliased then d2 else data)
  | Some _ => Raise TypeError
  end.

(** Lines 211-220: ordering, then removal of the null-valued
    arguments. *)
Definition order_and_strip (kwargs : dict pyval) : result (list (string * pyval)) :=
  match dict_get kwargs "data" with
  | None => Raise (KeyError "data")
  | Some (VDict d) =>
      ordered <- _order_params d ;;
      Ok (drop_null_args ordered)
  | Some _ => Raise AttributeError
  end.

(** Lines 164-227 of [_request]: the instance and the keyword arguments
    with which the session method is called.  [ts] is the reading of
    [currentTsMillis()].  The standing [requests_params] are only read: a
    ["data"] dict inside them would be changed in place by lines 204-209,
    which the returned instance does not record. *)
Definition request_kwargs (self : t) (ts : Z) (method : string)
           (signed force_params : bool) (kwargs : dict pyval)
  : t * result (dict pyval) :=
  if sigterm self then (self, Raise AlreadyStoppedError)
  else
    let '(self, kwargs) := rotate_credentials self kwargs in
    let kwargs := apply_defaults self kwargs in
    (self,
     '(kwargs, data, aliased) <- merge_nested_params kwargs ;;
     '(kwargs, data) <-
        (if signed then sign_request self ts kwargs data aliased
         else Ok (kwargs, data)) ;;
     if py_truthy data then
       params <- order_and_strip kwargs ;;
       if String.eqb method "get" || force_params then
         Ok (dict_del (dict_set kwargs "params" (VStr (render_params rt params))) "data")
       else Ok (dict_set kwargs "data" (as_tuples params))
     else Ok kwargs).

(** [_request]; [session method uri kwargs] is the HTTP exchange
    [getattr(self.session, method)(uri, **kwargs)]. *)
Definition _request (session : string -> string -> dict pyval -> result response)
           (self : t) (ts : Z) (method uri : string)
           (signed force_params throw_exception : bool) (kwargs : dict pyval)
  : t * result pyval :=
  match request_kwargs self ts method signed force_params kwargs with
  | (self, Raise e) => (self, Raise e)
  | (self, Ok kwargs) =>
      match session method uri kwargs with
      | Raise e => (self, Raise e)
      | Ok r => (set_response self r, _handle_response throw_exception r)
      end
  end.
End Request.

End BinanceRestClient.

(** ** async_tools.py: [BinanceKlinesFetcher] *)

(** *** [datetime] as the fetcher uses it

    An aware UTC [datetime] is its number of microseconds since the epoch, a
    [timedelta] a number of microseconds. *)
Module Datetime.

Definition min_datetime : Z := -62135596800000000.
Definition max_datetime : Z := 253402300799999999.
Definition max_delta_days : Z := 999999999.
Definition us_per_day : Z := 86400000000.
Definition us_per_minute : Z := 60000000.

(** [timedelta(minutes=m)] for a float [m]: the whole minutes are exact,
    the fraction is scaled in floating point and rounded to the nearest
    microsecond, ties to even. *)
Definition timedelta_minutes (m : float) : result Z :=
  match Prim2SF m with
  | S754_nan => Raise (ValueError "cannot convert float NaN to integer")
  | S754_infinity _ => Raise OverflowError
  | S754_zero _ => Ok 0
  | S754_finite s mant e =>
      let whole := if 0 <=? e then Zpos mant * 2 ^ e else Zpos mant / 2 ^ (- e) in
      let frac :=
        if 0 <=? e then 0%float
        else float_of_ratio s (Zpos mant mod 2 ^ (- e)) (2 ^ (- e)) in
      let us := (if s then - whole else whole) * us_per_minute
                + rint (60000000 * frac)%float in
      if Z.abs (us / us_per_day) <=? max_delta_days then Ok us
      else Raise OverflowError
  end.

(** [dt - delta]. *)
Definition sub (dt delta : Z) : result Z :=
  let r := dt - delta in
  if (min_datetime <=? r) && (r <=? max_datetime) then Ok r
  else Raise OverflowError.

(** [dt.timestamp()]: seconds since the epoch, as a float. *)
Definition timestamp (dt : Z) : float :=
  float_of_ratio (dt <? 0) (Z.abs dt) 1000000.

(** [int(dt.timestamp() * 1000)]. *)
Definition timestamp_ms (dt : Z) : result Z :=
  Z_of_float (timestamp dt * 1000)%float.

End Datetime.

Module BinanceKlinesFetcher.

Definition base_url : string := "https://api.binance.com/api/v3/klines".

Record t : Type := {
  pairs : list string;
  interval : string;
  fromTime : option Z;
  toTime : option Z;
  n_mins : option float;
  pair_retries : Z;
  pair_timeout : option Z;
  init_backoff : float;
  responses : dict pyval
}.

Definition truthy_int (v : option Z) : bool :=
  match v with Some z => negb (z =? 0) | None => false end.

Definition truthy_float (v : option float) : bool :=
  match v with Some f => negb (PrimFloat.eqb f 0%float) | None => false end.

Definition required_msg : string := "fromTime and toTime or n_mins are required.".

Definition __init__ (pairs : list string) (interval : string)
           (fromTime toTime : option Z) (n_mins : option float)
           (pair_retries : Z) (pair_timeout : option Z) (init_backoff : float)
  : result t :=
  if negb (truthy_int fromTime && truthy_int toTime) && negb (truthy_float n_mins) then
    Raise (ValueError required_msg)
  else
    Ok {| pairs := pairs; interval := interval; fromTime := fromTime;
          toTime := toTime; n_mins := n_mins; pair_retries := pair_retries;
          pair_timeout := pair_timeout; init_backoff := init_backoff;
          responses := [] |}.

Definition with_responses (self : t) (r : dict pyval) : t :=
  {| pairs := pairs self; interval := interval self; fromTime := fromTime self;
     toTime := toTime self; n_mins := n_mins self; pair_retries := pair_retries self;
     pair_timeout := pair_timeout self; init_backoff := init_backoff self;
     responses := r |}.

Definition create_klines_urls (self : t) (start end_ : Z) : list string :=
  map (fun p =>
         (base_url ++ "?symbol=" ++ p ++ "&interval=" ++ interval self
            ++ "&startTime=" ++ string_of_Z start
            ++ "&endTime=" ++ string_of_Z end_)%string)
      (map (remove_char "-"%char) (pairs self)).

(** The window computed from the clock; [now] is the reading of
    [datetime.now(tz=timezone.utc)]. *)
Definition clock_window (now : Z) (minutes : float) : result (Z * Z) :=
  utcNow <- Datetime.sub now 500000 ;;
  toTime <- Datetime.timestamp_ms utcNow ;;
  delta <- Datetime.timedelta_minutes minutes ;;
  start <- Datetime.sub utcNow delta ;;
  fromTime <- Datetime.timestamp_ms start ;;
  Ok (fromTime, toTime).

Definition get_backwards_range (self : t) (now : Z) : result (Z * Z) :=
  if negb (truthy_float (n_mins self)) then
    if truthy_int (fromTime self) && truthy_int (toTime self) then
      match fromTime self, toTime self with
      | Some f, Some u => Ok (f, u)
      | _, _ => Raise (ValueError required_msg)
      end
    else Raise (ValueError required_msg)
  else
    match n_mins self with
    | Some m => clock_window now m
    | None => Raise (ValueError required_msg)
    end.

(** What one [session.get(url, timeout=...)] followed by
    [response.json()] comes to. *)
Inductive outcome : Type :=
| Timeout
| Failure
| Response (body : pyval).

(** What a task does that can be observed: the requests it sends and the
    delays it sleeps. *)
Inductive event : Type :=
| Get (attempt : nat)
| Sleep (delay : float).

(** [self.init_backoff * (2**attempt)]. *)
Definition backoff (init_backoff : float) (attempt : nat) : result float :=
  f <- float_of_Z (2 ^ Z.of_nat attempt) ;;
  Ok (init_backoff * f)%float.

(** The [for attempt in range(self.pair_retries)] loop with its [else]
    clause, on the attempts that remain; the result is [resp]. *)
Fixpoint attempt_loop (net : nat -> outcome) (init_backoff : float)
         (attempts : list nat) : list event * result pyval :=
  match attempts with
  | [] => ([], Ok (VList []))
  | attempt :: rest =>
      match net attempt with
      | Response body => ([Get attempt], Ok body)
      | Failure => ([Get attempt], Ok (VList []))
      | Timeout =>
          match backoff init_backoff attempt with
          | Raise e => ([Get attempt], Raise e)
          | Ok d =>
              let '(tr, r) := attempt_loop net init_backoff rest in
              (Get attempt :: Sleep d :: tr, r)
          end
      end
  end.

Fixpoint mapM {A B : Type} (f : A -> result B) (l : list A) : result (list B) :=
  match l with
  | [] => Ok []
  | x :: l' => y <- f x ;; ys <- mapM f l' ;; Ok (y :: ys)
  end.

Section WithRuntime.
Variable rt : runtime.

(** [[float(r[1]), float(r[2]), float(r[3]), float(r[4]), r[6]]]. *)
Definition project_row (r : pyval) : result pyval :=
  x1 <- py_getitem r 1 ;; o <- py_float rt x1 ;;
  x2 <- py_getitem r 2 ;; h <- py_float rt x2 ;;
  x3 <- py_getitem r 3 ;; l <- py_float rt x3 ;;
  x4 <- py_getitem r 4 ;; c <- py_float rt x4 ;;
  x6 <- py_getitem r 6 ;;
  Ok (VList [VFloat o; VFloat h; VFloat l; VFloat c; x6]).

(** Lines 99-105. *)
Definition normalise (resp : pyval) : result pyval :=
  let resp := match resp with VDict _ => VList [] | _ => resp end in
  if py_truthy resp then
    rows <- py_iter resp ;;
    rows' <- mapM project_row rows ;;
    Ok (VList rows')
  else Ok resp.

(** One task: its events, and [self.responses] when it ends or the
    exception it ends with. *)
Definition get_single_pair (self : t) (net : nat -> outcome) (pair : string)
  : list event * result (dict pyval) :=
  let '(tr, r) :=
    attempt_loop net (init_backoff self) (seq 0 (Z.to_nat (pair_retries self))) in
  (tr,
   resp <- r ;;
   resp <- normalise resp ;;
   Ok (dict_set (responses self) pair resp)).

(** The tasks of a batch, in the order in which they end.  [gather]
    re-raises the first exception of a task. *)
Fixpoint gather (self : t) (net : nat -> string -> nat -> outcome)
         (tasks : list (string * string)) (order : list nat)
  : result (dict pyval) :=
  match order with
  | [] => Ok (responses self)
  | i :: order' =>
      match nth_error tasks i with
      | None => gather self net tasks order'
      | Some (p, url) =>
          r <- snd (get_single_pair self (net i url) p) ;;
          gather (with_responses self r) net tasks order'
      end
  end.

(** [fetch_pairs_klines]; [net i url k] is the outcome of the request
    number [k] of task [i], and [order] lists the tasks as they end. *)
Definition fetch_pairs_klines (self : t) (now : Z)
           (net : nat -> string -> nat -> outcome) (order : list nat)
  : result (dict pyval) :=
  let self := with_responses self [] in
  '(fromTime, toTime) <- get_backwards_range self now ;;
  let urls := create_klines_urls self fromTime toTime in
  gather self net (combine (pairs self) urls) order.
End WithRuntime.

(** The rows synthesised from a donor:
    [[[round(r[0] / eth_usdt[i][0], 9), eth_usdt[i][1]] for i, r in enumerate(rows)]]. *)
Definition synth_row (eth_usdt : pyval) (i : nat) (r : pyval) : result pyval :=
  a <- py_getitem r 0 ;;
  e <- py_getitem eth_usdt i ;;
  b <- py_getitem e 0 ;;
  q <- py_truediv a b ;;
  p <- py_round9 q ;;
  e' <- py_getitem eth_usdt i ;;
  c <- py_getitem e' 1 ;;
  Ok (VList [p; c]).

Fixpoint synth_rows (eth_usdt : pyval) (i : nat) (rows : list pyval)
  : result (list pyval) :=
  match rows with
  | [] => Ok []
  | r :: rows' =>
      x <- synth_row eth_usdt i r ;;
      xs <- synth_rows eth_usdt (S i) rows' ;;
      Ok (x :: xs)
  end.

(** Lines 144-148, for the donor series [v]. *)
Definition combine_with (eth_usdt : pyval) (q_l : Z) (v : pyval) : result pyval :=
  n <- py_len v ;;
  rows <- (if q_l <? n then py_slice_to v (Z.to_nat q_l) else Ok v) ;;
  rs <- py_iter rows ;;
  base_eth <- synth_rows eth_usdt 0 rs ;;
  Ok (VList base_eth).

Definition mem_string (k : string) (l : list string) : bool :=
  existsb (String.eqb k) l.

(** The first item of [self.responses] that passes
    [(base in k) and (k not in missing_pairs)]. *)
Definition find_donor (base : string) (missing_pairs : list string)
           (responses : dict pyval) : option (string * pyval) :=
  find (fun kv => contains base (fst kv) && negb (mem_string (fst kv) missing_pairs))
       responses.

(** The body of [for p in missing_pairs]. *)
Definition fill_pair (eth_usdt : pyval) (q_l : Z) (missing_pairs : list string)
           (responses : dict pyval) (p : string) : result (dict pyval) :=
  let base := split_head "-"%char p in
  match find_donor base missing_pairs responses with
  | Some (_, v) =>
      base_eth <- combine_with eth_usdt q_l v ;;
      Ok (dict_set responses p base_eth)
  | None => Ok responses
  end.

Fixpoint fill_pairs (eth_usdt : pyval) (q_l : Z) (missing_pairs : list string)
         (responses : dict pyval) (todo : list string) : result (dict pyval) :=
  match todo with
  | [] => Ok responses
  | p :: todo' =>
      responses' <- fill_pair eth_usdt q_l missing_pairs responses p ;;
      fill_pairs eth_usdt q_l missing_pairs responses' todo'
  end.

Definition missing (responses : dict pyval) : list string :=
  map fst (filter (fun kv => negb (py_truthy (snd kv))) responses).

(** [fill_missing_pairs], on [self.responses]. *)
Definition fill_missing_pairs (responses : dict pyval) : result (dict pyval) :=
  match dict_get responses "ETH-USDT" with
  | None => Raise (KeyError "ETH-USDT")
  | Some eth_usdt =>
      q_l <- py_len eth_usdt ;;
      let missing_pairs := missing responses in
      fill_pairs eth_usdt q_l missing_pairs responses missing_pairs
  end.

End BinanceKlinesFetcher.

(** ** Vocabulary of the statements *)

Import BinanceRestClient.

Definition is_signature (kv : string * pyval) : bool := String.eqb (fst kv) "signature".

(** The order in which [_order_params] leaves the keys. *)
Definition key_le (a b : string * pyval) : Prop := String.leb (fst a) (fst b) = true.

(** A runtime for running the model on inputs whose evaluation does not
    depend on what the libraries compute. *)
Definition plain_runtime : runtime :=
  {| hmac_sha256_hex := fun key msg => ("hmac(" ++ key ++ "," ++ msg ++ ")")%string;
     repr_float := fun _ => "<float>";
     repr_str := fun s => ("'" ++ s ++ "'")%string;
     float_of_str := fun _ => None |}.

(** Responses used as concrete inputs. *)
Definition empty_object_400 : response :=
  {| status_code := 400; text := "{}"; json := Some (VDict []) |}.

Definition empty_list_200 : response :=
  {| status_code := 200; text := "[]"; json := Some (VList []) |}.

Definition gateway_page_200 : response :=
  {| status_code := 200; text := "<html>"; json := None |}.

Import BinanceKlinesFetcher.

(** Fetchers used as concrete inputs: an explicit window with the default
    duration of five minutes, the same window with no duration, and neither. *)
Definition fetcher (fromTime toTime : option Z) (n_mins : option float)
           (pair_retries : Z) (init_backoff : float) : BinanceKlinesFetcher.t :=
  {| pairs := ["ETH-USDT"; "BTC-USDT"; "ADA-ETH"]; interval := "1s";
     fromTime := fromTime; toTime := toTime; n_mins := n_mins;
     pair_retries := pair_retries; pair_timeout := None;
     init_backoff := init_backoff; responses := [] |}.

Definition window_and_duration : BinanceKlinesFetcher.t :=
  fetcher (Some 1600000000000) (Some 1600000300000) (Some 5%float) 3 1.

Definition window_only : BinanceKlinesFetcher.t :=
  fetcher (Some 1600000000000) (Some 1600000300000) None 3 1.

Definition no_window_no_duration : BinanceKlinesFetcher.t :=
  fetcher (Some 0) (Some 0) None 3 1.

(** A reading of the clock, in microseconds since the epoch. *)
Definition some_instant : Z := 1700000000000000.

(** A row as [get_single_pair] records it: open, high, low, close and close
    time. *)
Definition kline (o h l c : float) (closeTime : Z) : pyval :=
  VList [VFloat o; VFloat h; VFloat l; VFloat c; VInt closeTime].

(** The row the specification describes for index [i] of a donor: the
    donor's close price over the reference's close price at [i], rounded to
    nine decimals, with the reference's close time at [i]. *)
Definition spec_synth_row (reference : pyval) (i : nat) (donor_row : pyval)
  : result pyval :=
  close <- py_getitem donor_row 3 ;;
  ref_row <- py_getitem reference i ;;
  ref_close <- py_getitem ref_row 3 ;;
  q <- py_truediv close ref_close ;;
  price <- py_round9 q ;;
  closeTime <- py_getitem ref_row 4 ;;
  Ok (VList [price; closeTime]).

(** Series maps used as concrete inputs. *)
Definition eth_usdt_rows : pyval :=
  VList [kline 100 101 99 100.5 1700000000999; kline 110 111 109 110.5 1700000001999].

Definition ada_usdt_row0 : pyval := kline 5 5.2 4.9 5.1 1700000000999.
Definition ada_usdt_row1 : pyval := kline 6 6.3 5.8 6.2 1700000001999.

Definition ada_usdt_rows : pyval := VList [ada_usdt_row0; ada_usdt_row1].

Definition klines_with_gap : dict pyval :=
  [("ETH-USDT", eth_usdt_rows); ("ADA-USDT", ada_usdt_rows); ("ADA-ETH", VList [])].

Definition empty_reference : dict pyval :=
  [("ETH-USDT", VList []); ("BTC-USDT", VList [kline 5 5.2 4.9 5.1 1700000000999]);
   ("BTC-ETH", VList [])].

Definition no_reference : dict pyval :=
  [("BTC-USDT", VList [kline 5 5.2 4.9 5.1 1700000000999]); ("BTC-ETH", VList [])].

(** The example of the specification, on rows of two columns (close price,
    close time). *)
Definition two_column_example : dict pyval :=
  [("ETH-USDT", VList [VList [VFloat 100; VInt 1700000000999];
                       VList [VFloat 110; VInt 1700000001999]]);
   ("X-USDT", VList [VList [VFloat 5; VInt 1700000000999];
                     VList [VFloat 6; VInt 1700000001999]]);
   ("X-ETH", VList [])].

(** The delay of the sleep that comes immediately before the request number
    [k] in a trace, when there is one. *)
Fixpoint wait_before (tr : list event) (k : nat) : option float :=
  match tr with
  | [] => None
  | Sleep d :: tr' =>
      match tr' with
      | Get j :: _ => if Nat.eqb j k then Some d else wait_before tr' k
      | _ => wait_before tr' k
      end
  | Get _ :: tr' => wait_before tr' k
  end.

(** The number of requests in a trace. *)
Definition requests (tr : list event) : nat :=
  List.length (filter (fun e => match e with Get _ => true | Sleep _ => false end) tr).

(** A server that never answers in time. *)
Definition always_timeout : nat -> outcome := fun _ => Timeout.

(** A fetcher with 1025 retries and no initial backoff. *)
Definition many_retries : BinanceKlinesFetcher.t :=
  fetcher None None (Some 5%float) 1025 0.

(** A network on which the second task receives a list whose only row has
    a single field, and the other requests fail. *)
Definition short_row_net : nat -> string -> nat -> outcome :=
  fun task _ _ =>
    match task with
    | 1%nat => Response (VList [VList [VInt 1700000000000]])
    | _ => Failure
    end.

(** The timeout with which a request is dispatched: the entry of the
    [requests_params] nested in the per-call [data], else the entry of the
    standing [requests_params] of the instance, else 10. *)
Definition standing_timeout (self : BinanceRestClient.t) : pyval :=
  match requests_params self with
  | Some rp => match dict_get rp "timeout" with Some v => v | None => VInt 10 end
  | None => VInt 10
  end.

Definition nested_timeout (kwargs : dict pyval) : option pyval :=
  match dict_get kwargs "data" with
  | Some (VDict d) =>
      match dict_get d "requests_params" with
      | Some (VDict r) => dict_get r "timeout"
      | _ => None
      end
  | _ => None
  end.

Definition effective_timeout (self : BinanceRestClient.t) (kwargs : dict pyval) : pyval :=
  match nested_timeout kwargs with
  | Some v => v
  | None => standing_timeout self
  end.

(** Clients and calls used as concrete inputs. *)
Definition client (secret : pyval) (standing : option (dict pyval)) : BinanceRestClient.t :=
  {| sigterm := false; api_key := VStr "key"; api_secret := secret;
     requests_params := standing; ts_offset := 0; last_response := None |}.

Definition call_with_nested_timeout : dict pyval :=
  [("data", VDict [("symbol", VStr "ETHUSDT");
                   ("requests_params", VDict [("timeout", VInt 30)])]);
   ("timeout", VInt 5)].


(** A signed call with a null-valued parameter. *)
Definition call_with_null : dict pyval :=
  [("data", VDict [("symbol", VStr "ETHUSDT"); ("orderId", VNone)])].

(** ** client.py: the verbs and the endpoints built on [_request]

    The instance attribute [api_url], which [__init__] takes from the
    settings of the exchange, is a parameter here. *)

Definition API_VERSION : string := "v3".

Definition _create_api_uri (api_url path : string) (signed : bool) (version : string)
  : string :=
  (api_url ++ "/" ++ version ++ "/" ++ path)%string.

(** A call [f(a, ..., **kwargs)] raises [TypeError] when [kwargs] carries a
    keyword that names an argument already given. *)
Definition clashes (given : list string) (kwargs : dict pyval) : bool :=
  existsb (dict_mem kwargs) given.

(** A keyword of [**kwargs] that names a parameter of the callee is bound to
    it: [force_params] (used for its truth value) and [throw_exception]
    (tested with [is True]). *)
Definition bind_force_params (kwargs : dict pyval) : bool * dict pyval :=
  match dict_pop kwargs "force_params" with
  | Some (v, kwargs') => (py_truthy v, kwargs')
  | None => (false, kwargs)
  end.

Definition bind_throw_exception (kwargs : dict pyval) : bool * dict pyval :=
  match dict_pop kwargs "throw_exception" with
  | Some (v, kwargs') => (match v with VBool true => true | _ => false end, kwargs')
  | None => (true, kwargs)
  end.

Section Verbs.
Variable rt : runtime.
Variable session : string -> string -> dict pyval -> result response.
Variable api_url : string.

(** [_request_api], with
    [self._request(method, uri, signed, throw_exception=throw_exception, **kwargs)]. *)
Definition _request_api (self : BinanceRestClient.t) (ts : Z) (method path : string)
           (signed : bool) (version : string) (throw_exception : bool)
           (kwargs : dict pyval) : BinanceRestClient.t * result pyval :=
  let uri := _create_api_uri api_url path signed version in
  if clashes ["self"; "method"; "uri"; "signed"; "throw_exception"] kwargs then
    (self, Raise TypeError)
  else
    let '(force_params, kwargs) := bind_force_params kwargs in
    _request rt session self ts method uri signed force_params throw_exception kwargs.

(** [_get], [_put] and [_delete]:
    [self._request_api(verb, path, signed, version, **kwargs)]. *)
Definition call_verb (verb : string) (self : BinanceRestClient.t) (ts : Z) (path : string)
           (signed : bool) (version : string) (kwargs : dict pyval)
  : BinanceRestClient.t * result pyval :=
  if clashes ["self"; "method"; "path"; "signed"; "version"] kwargs then
    (self, Raise TypeError)
  else
    let '(throw_exception, kwargs) := bind_throw_exception kwargs in
    _request_api self ts verb path signed version throw_exception kwargs.

Definition _get := call_verb "get".
Definition _put := call_verb "put".
Definition _delete := call_verb "delete".

(** [_post], which names [throw_exception] among its own parameters. *)
Definition _post (self : BinanceRestClient.t) (ts : Z) (path : string)
           (signed : bool) (version : string) (throw_exception : bool)
           (kwargs : dict pyval) : BinanceRestClient.t * result pyval :=
  if clashes ["self"; "method"; "path"; "signed"; "version"; "throw_exception"] kwargs then
    (self, Raise TypeError)
  else _request_api self ts "post" path signed version throw_exception kwargs.

Definition get_exchange_info (self : BinanceRestClient.t) (ts : Z) (params : dict pyval)
  : BinanceRestClient.t * result pyval :=
  _get self ts "exchangeInfo" false API_VERSION [("data", VDict params)].

Definition get_klines (self : BinanceRestClient.t) (ts : Z) (params : dict pyval)
  : BinanceRestClient.t * result pyval :=
  _get self ts "klines" false API_VERSION [("data", VDict params)].

(** [v[key]] for a string [key]. *)
Definition py_getitem_str (v : pyval) (key : string) : result pyval :=
  match v with
  | VDict d =>
      match dict_get d key with
      | Some x => Ok x
      | None => Raise (KeyError key)
      end
  | _ => Raise TypeError
  end.

(** [v == s] for a string [s]. *)
Definition py_eq_str (v : pyval) (s : string) : bool :=
  match v with
  | VStr s' => String.eqb s' s
  | _ => false
  end.

(** The loop of [get_symbol_info] over [res["symbols"]]; [wanted] is
    [symbol.upper()]. *)
Fixpoint first_symbol (wanted : string) (items : list pyval) : result pyval :=
  match items with
  | [] => Ok VNone
  | item :: items' =>
      name <- py_getitem_str item "symbol" ;;
      if py_eq_str name wanted then Ok item else first_symbol wanted items'
  end.

(** [get_symbol_info]; [upper] is [str.upper]. *)
Definition get_symbol_info (upper : string -> string) (self : BinanceRestClient.t)
           (ts : Z) (symbol : string) : BinanceRestClient.t * result pyval :=
  match _get self ts "exchangeInfo" false API_VERSION [] with
  | (self, Raise e) => (self, Raise e)
  | (self, Ok res) =>
      (self,
       symbols <- py_getitem_str res "symbols" ;;
       items <- py_iter symbols ;;
       first_symbol (upper symbol) items)
  end.

(** [ping]: [res == {}]. *)
Definition ping (self : BinanceRestClient.t) (ts : Z) : BinanceRestClient.t * result bool :=
  match _get self ts "ping" false API_VERSION [] with
  | (self, Raise e) => (self, Raise e)
  | (self, Ok res) => (self, Ok match res with VDict [] => true | _ => false end)
  end.

(** [_get_earliest_valid_timestamp]: [kline[0][0]] of one bar asked from
    [startTime=0] with [endTime=None]. *)
Definition _get_earliest_valid_timestamp (self : BinanceRestClient.t) (ts : Z)
           (symbol interval : pyval) : BinanceRestClient.t * result pyval :=
  match get_klines self ts
          [("symbol", symbol); ("interval", interval); ("limit", VInt 1);
           ("startTime", VInt 0); ("endTime", VNone)] with
  | (self, Raise e) => (self, Raise e)
  | (self, Ok kline) =>
      (self, first <- py_getitem kline 0 ;; py_getitem first 0)
  end.
End Verbs.

(** [stop]: the instance is marked as stopped; the result is [True]. *)
Definition stop (self : BinanceRestClient.t) : BinanceRestClient.t * bool :=
  ({| sigterm := true; api_key := api_key self; api_secret := api_secret self;
      requests_params := requests_params self; ts_offset := ts_offset self;
      last_response := last_response self |}, true).

Definition __enter__ (self : BinanceRestClient.t) : result BinanceRestClient.t :=
  if sigterm self then Raise AlreadyStoppedError else Ok self.

(** ** async_tools.py: [fetch_and_fill_klines] *)

Definition fetch_and_fill_klines (rt : runtime) (self : BinanceKlinesFetcher.t) (now : Z)
           (net : nat -> string -> nat -> outcome) (order : list nat)
  : result (dict pyval) :=
  fetched <- fetch_pairs_klines rt self now net order ;;
  fill_missing_pairs fetched.

(** Parameter sets used as concrete inputs. *)
Definition params_symbol_first : dict pyval :=
  [("symbol", VStr "ETHUSDT"); ("signature", VStr "abc"); ("limit", VInt 5)].

Definition params_limit_first : dict pyval :=
  [("limit", VInt 5); ("symbol", VStr "ETHUSDT"); ("signature", VStr "abc")].


Definition call_with_credentials : dict pyval :=
  [("api_key", VStr "k2"); ("data", VDict [("symbol", VStr "ETHUSDT")]);
   ("api_secret", VStr "s2")].


(** An [exchangeInfo] body and a session that serves it. *)
Definition exchange_info_items : list pyval :=
  [VDict [("symbol", VStr "ETHBTC"); ("status", VStr "TRADING")];
   VDict [("symbol", VStr "BTCUSDT"); ("status", VStr "TRADING")];
   VDict [("symbol", VStr "BTCUSDT"); ("status", VStr "BREAK")]].

Definition exchange_info_session : string -> string -> dict pyval -> result response :=
  fun _ _ _ =>
    Ok {| status_code := 200; text := "{...}";
          json := Some (VDict [("symbols", VList exchange_info_items)]) |}.

(** An item of [res["symbols"]] that the loop of [get_symbol_info] passes
    over: it has a [symbol], which is not the one looked for. *)
Definition other_symbol (wanted : string) (item : pyval) : Prop :=
  exists name, py_getitem_str item "symbol" = Ok name /\ py_eq_str name wanted = false.

(** A row of five columns of which the first four are floats. *)
Definition is_kline (row : pyval) : Prop :=
  exists o h l c closeTime, row = VList [VFloat o; VFloat h; VFloat l; VFloat c; closeTime].

(** A network on which the request times out twice and then fails, and one
    on which it times out once and then gets an error object. *)
Definition fails_third : nat -> outcome :=
  fun attempt => match attempt with 2%nat => Failure | _ => Timeout end.

Definition error_object_second : nat -> outcome :=
  fun attempt =>
    match attempt with
    | 1%nat => Response (VDict [("code", VInt (-1121)); ("msg", VStr "Invalid symbol.")])
    | _ => Timeout
    end.

(** A raw bar as the exchange sends it, with numbers in place of the decimal
    strings. *)
Definition raw_bar : pyval :=
  VList [VInt 1700000000000; VFloat 5; VFloat 5.2; VFloat 4.9; VFloat 5.1; VFloat 12;
         VInt 1700000000999; VFloat 60; VInt 3; VFloat 6; VFloat 30; VInt 0].

(** A network on which every request is answered by one bar, and the
    scenario of the specification: [ADA-ETH] fails, the other two answer. *)
Definition one_bar_net : nat -> string -> nat -> outcome :=
  fun _ _ _ => Response (VList [raw_bar]).

Definition ada_fails_net : nat -> string -> nat -> outcome :=
  fun task _ _ => match task with 2%nat => Failure | _ => Response (VList [raw_bar]) end.

Definition without_reference : BinanceKlinesFetcher.t :=
  {| pairs := ["BTC-USDT"; "ADA-BTC"]; interval := "1s";
     fromTime := None; toTime := None; n_mins := Some 5%float;
     pair_retries := 3; pair_timeout := None; init_backoff := 1; responses := [] |}.

(** A map whose donor is longer than the reference. *)
Definition long_donor_map : dict pyval :=
  [("ETH-USDT", VList [kline 100 101 99 100.5 1700000000999]);
   ("ADA-USDT", ada_usdt_rows); ("ADA-ETH", VList [])].

Definition partly_repairable : dict pyval :=
  [("ETH-USDT", eth_usdt_rows); ("ADA-USDT", ada_usdt_rows); ("ADA-ETH", VList []);
   ("XRP-ETH", VList [])].

(** A network on which the request times out once and is then answered by
    one bar. *)
Definition answers_second : nat -> outcome :=
  fun attempt => match attempt with 1%nat => Response (VList [raw_bar]) | _ => Timeout end.


(** A signed call whose nested [requests_params] is null. *)
Definition call_with_null_requests_params : dict pyval :=
  [("data", VDict [("symbol", VStr "ETHUSDT"); ("requests_params", VNone)])].


(** [dict(l)] for a list of key/value pairs. *)
Definition dict_of_items (l : list (string * pyval)) : dict pyval := dict_update [] l.

(** * Properties *)

(** ** Dictionaries *)

Section DictFacts.
Context {V : Type}.
Implicit Types (d : dict V) (k : string) (v : V).

Lemma dict_get_set_same d k v : dict_get (dict_set d k v) k = Some v.
Proof.
  induction d as [|[k' v'] d IH]; simpl.
  - now rewrite String.eqb_refl.
  - destruct (String.eqb k' k) eqn:E; simpl; rewrite E; auto.
Qed.

Lemma dict_get_set_other d k k' v :
  k <> k' -> dict_get (dict_set d k v) k' = dict_get d k'.
Proof.
  intros Hne. induction d as [|[k0 v0] d IH]; simpl.
  - destruct (String.eqb k k') eqn:E; auto.
    apply String.eqb_eq in E. contradiction.
  - destruct (String.eqb k0 k) eqn:E; simpl.
    + apply String.eqb_eq in E. subst k0.
      destruct (String.eqb k k') eqn:E'; auto.
      apply String.eqb_eq in E'. contradiction.
    + now rewrite IH.
Qed.

Lemma dict_get_del_other d k k' :
  k <> k' -> dict_get (dict_del d k) k' = dict_get d k'.
Proof.
  intros Hne. induction d as [|[k0 v0] d IH]; simpl; auto.
  destruct (String.eqb k0 k) eqn:E; simpl.
  - apply String.eqb_eq in E. subst k0.
    destruct (String.eqb k k') eqn:E'; auto.
    apply String.eqb_eq in E'. contradiction.
  - now rewrite IH.
Qed.

Lemma dict_get_In d k v : dict_get d k = Some v -> In (k, v) d.
Proof.
  induction d as [|[k' v'] d IH]; simpl; [discriminate|].
  destruct (String.eqb k' k) eqn:E.
  - apply String.eqb_eq in E. intros [= ->]. subst. now left.
  - auto.
Qed.

Lemma dict_get_None d k : dict_get d k = None <-> ~ In k (keys d).
Proof.
  induction d as [|[k' v'] d IH]; simpl.
  - tauto.
  - destruct (String.eqb k' k) eqn:E.
    + apply String.eqb_eq in E. split; [discriminate | intros H; exfalso; auto].
    + apply String.eqb_neq in E. rewrite IH. tauto.
Qed.

Lemma keys_dict_set_present d k v :
  In k (keys d) -> keys (dict_set d k v) = keys d.
Proof.
  induction d as [|[k' v'] d IH]; simpl; [tauto|].
  intros Hin. destruct (String.eqb k' k) eqn:E; simpl; auto.
  apply String.eqb_neq in E. f_equal. apply IH. tauto.
Qed.

Lemma keys_dict_set_absent d k v :
  ~ In k (keys d) -> keys (dict_set d k v) = keys d ++ [k].
Proof.
  induction d as [|[k' v'] d IH]; simpl; auto.
  intros Hin. destruct (String.eqb k' k) eqn:E; simpl.
  - apply String.eqb_eq in E. tauto.
  - f_equal. apply IH. tauto.
Qed.

Lemma dict_set_same_value d k v :
  dict_get d k = Some v -> dict_set d k v = d.
Proof.
  induction d as [|[k' v'] d IH]; simpl; [discriminate|].
  destruct (String.eqb k' k) eqn:E.
  - now intros [= ->].
  - intros H. now rewrite IH.
Qed.
End DictFacts.

(** ** The order on keys *)

Lemma ascii_compare_trans_lt a b c :
  Ascii.compare a b = Lt -> Ascii.compare b c = Lt -> Ascii.compare a c = Lt.
Proof.
  unfold Ascii.compare. rewrite !N.compare_lt_iff. apply N.lt_trans.
Qed.

Lemma string_leb_trans s1 s2 s3 :
  String.leb s1 s2 = true -> String.leb s2 s3 = true -> String.leb s1 s3 = true.
Proof.
  unfold String.leb. revert s2 s3.
  induction s1 as [|a s1 IH]; intros [|b s2] [|c s3]; simpl; auto; try discriminate.
  destruct (Ascii.compare a b) eqn:Eab; try discriminate.
  - apply Ascii.compare_eq_iff in Eab. subst b.
    destruct (Ascii.compare a c); auto. apply IH.
  - intros _. destruct (Ascii.compare b c) eqn:Ebc; try discriminate.
    + apply Ascii.compare_eq_iff in Ebc. subst c. now rewrite Eab.
    + now rewrite (ascii_compare_trans_lt _ _ _ Eab Ebc).
Qed.

Lemma string_ltb_leb s1 s2 : String.ltb s1 s2 = true -> String.leb s1 s2 = true.
Proof.
  unfold String.ltb, String.leb. now destruct (String.compare s1 s2).
Qed.

Lemma string_nltb_leb s1 s2 : String.ltb s1 s2 = false -> String.leb s2 s1 = true.
Proof.
  unfold String.ltb, String.leb. rewrite (String.compare_antisym s1 s2).
  now destruct (String.compare s2 s1).
Qed.

(** ** The parameter canonicaliser *)

Lemma collect_params_eq data :
  collect_params data =
  (existsb is_signature data, filter (fun kv => negb (is_signature kv)) data).
Proof.
  unfold collect_params.
  assert (G : forall acc b,
    fold_left
      (fun st kv =>
         if String.eqb (fst kv) "signature" then (true, snd st)
         else (fst st, snd st ++ [kv]))
      data (b, acc)
    = (b || existsb is_signature data,
       acc ++ filter (fun kv => negb (is_signature kv)) data)).
  { induction data as [|kv data IH]; intros acc b; simpl.
    - now rewrite orb_false_r, app_nil_r.
    - unfold is_signature at 1 3.
      destruct (String.eqb (fst kv) "signature"); simpl; rewrite IH.
      + now rewrite orb_true_r.
      + now rewrite <- app_assoc. }
  now rewrite G.
Qed.

Lemma existsb_signature_get (data : dict pyval) :
  existsb is_signature data = true <-> exists v, dict_get data "signature" = Some v.
Proof.
  induction data as [|[k v] data IH]; simpl.
  - split; [discriminate | intros [v [=]]].
  - unfold is_signature at 1. simpl. destruct (String.eqb k "signature"); simpl.
    + split; eauto.
    + exact IH.
Qed.

(** What [_order_params] returns, in closed form. *)
Lemma _order_params_eq data :
  _order_params data =
  Ok (sort_by_key (filter (fun kv => negb (is_signature kv)) data)
      ++ match dict_get data "signature" with
         | Some v => [("signature", v)]
         | None => []
         end).
Proof.
  unfold _order_params. rewrite collect_params_eq.
  destruct (existsb is_signature data) eqn:E.
  - apply existsb_signature_get in E. destruct E as [v ->]. reflexivity.
  - destruct (dict_get data "signature") eqn:G.
    + assert (existsb is_signature data = true) by (apply existsb_signature_get; eauto).
      congruence.
    + now rewrite app_nil_r.
Qed.

Lemma insert_by_key_perm x l : Permutation (insert_by_key x l) (x :: l).
Proof.
  induction l as [|y l IH]; simpl; auto.
  destruct (String.ltb (fst y) (fst x)); auto.
  rewrite IH. apply perm_swap.
Qed.

Lemma sort_by_key_perm l : Permutation (sort_by_key l) l.
Proof.
  induction l as [|x l IH]; simpl; auto.
  rewrite insert_by_key_perm. now constructor.
Qed.

Lemma insert_by_key_sorted x l :
  StronglySorted key_le l -> StronglySorted key_le (insert_by_key x l).
Proof.
  induction 1 as [|y l Hs IH Hy]; simpl.
  - repeat constructor.
  - destruct (String.ltb (fst y) (fst x)) eqn:E.
    + constructor; auto.
      apply (Permutation_Forall (Permutation_sym (insert_by_key_perm x l))).
      constructor; auto. now apply string_ltb_leb.
    + apply string_nltb_leb in E.
      constructor; [now constructor|].
      constructor; auto.
      eapply Forall_impl; [|exact Hy].
      intros z Hz. unfold key_le in *. eapply string_leb_trans; eauto.
  Qed.

Lemma sort_by_key_sorted l : StronglySorted key_le (sort_by_key l).
Proof.
  induction l as [|x l IH]; simpl; [constructor|].
  now apply insert_by_key_sorted.
Qed.

Lemma string_app_assoc (a b c : string) : ((a ++ b) ++ c = a ++ (b ++ c))%string.
Proof. induction a as [|x a IH]; simpl; [reflexivity | now rewrite IH]. Qed.


Lemma concat_snoc (sep : string) (l : list string) (x : string) :
  exists pre, String.concat sep (l ++ [x]) = (pre ++ x)%string.
Proof.
  induction l as [|a l [pre IH]].
  - now exists "".
  - exists (a ++ sep ++ pre)%string.
    change ((a :: l) ++ [x]) with (a :: (l ++ [x])).
    destruct (l ++ [x]) as [|b l'] eqn:E.
    + now destruct l.
    + change (String.concat sep (a :: b :: l'))
        with (a ++ sep ++ String.concat sep (b :: l'))%string.
      now rewrite IH, !string_app_assoc.
Qed.

(** C4.  [_order_params] never raises.  Its result lists the entries of the
    input other than [signature], each with its value, sorted by key in the
    order of strings; when the input has a [signature] entry, wherever it
    stands, that entry comes after all of them, so that the rendered string
    ends with [signature=<value>]. *)
Theorem order_params_sorted_signature_last (rt : runtime) (data : dict pyval) :
  exists sorted,
    StronglySorted key_le sorted /\
    Permutation sorted (filter (fun kv => negb (is_signature kv)) data) /\
    match dict_get data "signature" with
    | Some v =>
        _order_params data = Ok (sorted ++ [("signature", v)]) /\
        exists pre,
          render_params rt (sorted ++ [("signature", v)])
          = (pre ++ "signature=" ++ py_str rt v)%string
    | None => _order_params data = Ok sorted
    end.
Proof.
  exists (sort_by_key (filter (fun kv => negb (is_signature kv)) data)).
  split; [apply sort_by_key_sorted|].
  split; [apply sort_by_key_perm|].
  rewrite _order_params_eq.
  destruct (dict_get data "signature") as [v|].
  - split; [reflexivity|].
    unfold render_params. rewrite map_app. simpl map.
    apply concat_snoc.
  - now rewrite app_nil_r.
Qed.

(** ** The response classifier *)

(** C8, the claim at an input: with exception-raising switched off, a
    response of status 400 whose body is [{}] yields the decoded (empty)
    object, not the body as it was received. *)
Lemma handle_response_opt_out_returns_decoded :
  _handle_response false empty_object_400 = Ok (VDict []) /\
  _handle_response false empty_object_400 <> Ok (VStr (text empty_object_400)).
Proof. split; [reflexivity | discriminate]. Qed.

(** C8, as the code has it.  A status in [[200, 300)] yields the decoded
    JSON body.  Any other status raises the API error when exception-raising
    is on; when the caller switched it off the body is decoded and returned,
    as for a success.  A body that does not decode raises the
    invalid-response error, unless the API error was raised first. *)
Theorem handle_response_classification (throw_exception : bool) (r : response) :
  (200 <= status_code r < 300 ->
   forall v, json r = Some v -> _handle_response throw_exception r = Ok v) /\
  (~ 200 <= status_code r < 300 ->
   _handle_response true r
   = Raise (BinanceAPIException_response (status_code r) (text r))) /\
  (~ 200 <= status_code r < 300 ->
   forall v, json r = Some v -> _handle_response false r = Ok v) /\
  (json r = None ->
   200 <= status_code r < 300 \/ throw_exception = false ->
   _handle_response throw_exception r
   = Raise (BinanceRequestException ("Invalid Response: " ++ text r))).
Proof.
  unfold _handle_response.
  assert (S : (200 <=? status_code r) && (status_code r <? 300) = true
              <-> 200 <= status_code r < 300) by lia.
  destruct ((200 <=? status_code r) && (status_code r <? 300)).
  - assert (Hs : 200 <= status_code r < 300) by now apply S.
    rewrite andb_false_r. simpl.
    split; [|split; [|split]].
    + now intros _ v ->.
    + intros Hn. contradiction.
    + intros Hn. contradiction.
    + now intros -> _.
  - assert (Hs : ~ 200 <= status_code r < 300) by (intros H; apply S in H; discriminate).
    simpl. split; [|split; [|split]].
    + intros H. contradiction.
    + reflexivity.
    + now intros _ v ->.
    + intros -> [H | ->]; [contradiction | reflexivity].
Qed.

Lemma handle_response_classification_witness :
  _handle_response true empty_list_200 = Ok (VList []) /\
  _handle_response true empty_object_400
  = Raise (BinanceAPIException_response 400 "{}") /\
  _handle_response false empty_object_400 = Ok (VDict []) /\
  _handle_response true gateway_page_200
  = Raise (BinanceRequestException "Invalid Response: <html>").
Proof.
  split; [|split; [|split]].
  - apply (proj1 (handle_response_classification true empty_list_200));
      [simpl; lia | reflexivity].
  - apply (proj1 (proj2 (handle_response_classification true empty_object_400))).
    simpl; lia.
  - apply (proj1 (proj2 (proj2 (handle_response_classification false empty_object_400))));
      [simpl; lia | reflexivity].
  - apply (proj2 (proj2 (proj2 (handle_response_classification true gateway_page_200))));
      [reflexivity | left; simpl; lia].
Defined.

(** ** The effective time window *)

Lemma clock_window_inv now m f u :
  clock_window now m = Ok (f, u) ->
  Datetime.timestamp_ms (now - 500000) = Ok u /\
  exists delta,
    Datetime.timedelta_minutes m = Ok delta /\
    Datetime.timestamp_ms (now - 500000 - delta) = Ok f.
Proof.
  unfold clock_window, Datetime.sub.
  destruct ((Datetime.min_datetime <=? now - 500000)
            && (now - 500000 <=? Datetime.max_datetime)); simpl; [|discriminate].
  destruct (Datetime.timestamp_ms (now - 500000)) as [u'|]; simpl; [|discriminate].
  destruct (Datetime.timedelta_minutes m) as [delta|]; simpl; [|discriminate].
  destruct ((Datetime.min_datetime <=? now - 500000 - delta)
            && (now - 500000 - delta <=? Datetime.max_datetime)); simpl; [|discriminate].
  destruct (Datetime.timestamp_ms (now - 500000 - delta)) as [f'|] eqn:Ef;
    simpl; [|discriminate].
  intros [= -> ->]. split; [reflexivity|].
  exists delta. split; [reflexivity | exact Ef].
Qed.

(** C3, the claim at an input: a fetcher constructed with an explicit window
    and the default duration of five minutes does not use the window it was
    given; the window is computed from the clock. *)
Lemma explicit_window_ignored_when_duration_set :
  __init__ ["ETH-USDT"; "BTC-USDT"; "ADA-ETH"] "1s"
           (Some 1600000000000) (Some 1600000300000) (Some 5%float) 3 None 1
  = Ok window_and_duration /\
  get_backwards_range window_and_duration some_instant
  = Ok (1699999699500, 1699999999500) /\
  get_backwards_range window_and_duration some_instant
  <> Ok (1600000000000, 1600000300000).
Proof.
  split; [reflexivity|]. split; [vm_compute; reflexivity|].
  vm_compute. discriminate.
Qed.

(** C3, as the code has it.  The duration comes first: when [n_mins] is set
    (not [None], not zero) the window is computed from the clock, whatever
    [fromTime] and [toTime] are: [toTime] is the millisecond timestamp of
    now minus half a second and [fromTime] that of the same instant minus
    [n_mins] minutes.  Without a duration, an explicit window (both ends set
    and not zero) is returned as it is.  With neither, [ValueError] is
    raised, also by the constructor. *)
Theorem effective_window (self : BinanceKlinesFetcher.t) (now : Z) :
  (forall m, n_mins self = Some m -> PrimFloat.eqb m 0 = false ->
     get_backwards_range self now = clock_window now m /\
     forall f u, get_backwards_range self now = Ok (f, u) ->
       Datetime.timestamp_ms (now - 500000) = Ok u /\
       exists delta,
         Datetime.timedelta_minutes m = Ok delta /\
         Datetime.timestamp_ms (now - 500000 - delta) = Ok f) /\
  (truthy_float (n_mins self) = false ->
   forall f u, fromTime self = Some f -> toTime self = Some u -> f <> 0 -> u <> 0 ->
     get_backwards_range self now = Ok (f, u)) /\
  (truthy_float (n_mins self) = false ->
   truthy_int (fromTime self) && truthy_int (toTime self) = false ->
     get_backwards_range self now = Raise (ValueError required_msg) /\
     __init__ (pairs self) (interval self) (fromTime self) (toTime self) (n_mins self)
              (pair_retries self) (pair_timeout self) (init_backoff self)
     = Raise (ValueError required_msg)).
Proof.
  split; [|split].
  - intros m Hm Hz.
    assert (E : get_backwards_range self now = clock_window now m).
    { unfold get_backwards_range, truthy_float. now rewrite Hm, Hz. }
    split; [exact E|]. intros f u H. rewrite E in H. now apply clock_window_inv.
  - intros Hn f u Hf Hu Hf0 Hu0.
    unfold get_backwards_range. rewrite Hn, Hf, Hu. simpl.
    apply Z.eqb_neq in Hf0, Hu0. now rewrite Hf0, Hu0.
  - intros Hn Hw. unfold get_backwards_range, __init__. now rewrite Hn, Hw.
Qed.

Lemma effective_window_witness :
  get_backwards_range window_and_duration some_instant
  = clock_window some_instant 5%float /\
  get_backwards_range window_only some_instant = Ok (1600000000000, 1600000300000) /\
  get_backwards_range no_window_no_duration some_instant
  = Raise (ValueError required_msg).
Proof.
  split; [|split].
  - apply (proj1 (effective_window window_and_duration some_instant) 5%float);
      reflexivity.
  - apply (proj1 (proj2 (effective_window window_only some_instant)));
      [reflexivity | reflexivity | reflexivity | lia | lia].
  - apply (proj2 (proj2 (effective_window no_window_no_duration some_instant)));
      reflexivity.
Defined.

(** ** The series reconstructor *)

Lemma In_dict_get {V : Type} (d : dict V) k v :
  NoDup (keys d) -> In (k, v) d -> dict_get d k = Some v.
Proof.
  induction d as [|[k' v'] d IH]; simpl; [tauto|].
  intros Hnd [H | H].
  - injection H as -> ->. now rewrite String.eqb_refl.
  - inversion Hnd as [|? ? Hnotin Hnd']; subst.
    destruct (String.eqb k' k) eqn:E.
    + apply String.eqb_eq in E. subst k'.
      exfalso. apply Hnotin. change k with (fst (k, v)). now apply in_map.
    + now apply IH.
Qed.

Lemma In_missing (responses : dict pyval) p :
  In p (missing responses) ->
  exists v, In (p, v) responses /\ py_truthy v = false.
Proof.
  unfold missing. rewrite in_map_iff. intros [[k v] [<- H]].
  apply filter_In in H. destruct H as [H1 H2]. simpl in *.
  exists v. split; auto. now apply negb_true_iff.
Qed.

(** Against an empty reference series every donor yields no row. *)
Lemma combine_with_empty_reference l :
  combine_with (VList []) 0 (VList l) = Ok (VList []).
Proof. now destruct l. Qed.

Lemma fill_pair_empty_reference responses ms p :
  NoDup (keys responses) ->
  (forall k v, In (k, v) responses -> exists l, v = VList l) ->
  In p (missing responses) ->
  fill_pair (VList []) 0 ms responses p = Ok responses.
Proof.
  intros Hnd Hwf Hp. unfold fill_pair.
  destruct (find_donor _ ms responses) as [[k v]|] eqn:F; [|reflexivity].
  apply find_some in F. destruct F as [Hin _].
  destruct (Hwf _ _ Hin) as [l ->].
  rewrite combine_with_empty_reference. simpl.
  destruct (In_missing _ _ Hp) as [w [Hw Hfalse]].
  destruct (Hwf _ _ Hw) as [l' ->].
  destruct l'; [|discriminate].
  f_equal. apply dict_set_same_value. now apply In_dict_get.
Qed.

Lemma fill_pairs_empty_reference responses ms todo :
  NoDup (keys responses) ->
  (forall k v, In (k, v) responses -> exists l, v = VList l) ->
  (forall p, In p todo -> In p (missing responses)) ->
  fill_pairs (VList []) 0 ms responses todo = Ok responses.
Proof.
  intros Hnd Hwf. induction todo as [|p todo IH]; intros Hsub; simpl; [reflexivity|].
  rewrite fill_pair_empty_reference; auto.
  - simpl. apply IH. intros q Hq. apply Hsub. now right.
  - apply Hsub. now left.
Qed.

(** C2, the claim at an input: with the reference series present and empty
    the reconstruction raises nothing and returns the map as it was. *)
Lemma empty_reference_is_not_fatal :
  fill_missing_pairs empty_reference = Ok empty_reference.
Proof. vm_compute. reflexivity. Qed.

(** C2, as the code has it.  When the reference pair is absent the
    reconstruction raises [KeyError].  When its series is present and empty
    nothing is raised: in a map whose values are lists the reconstruction
    returns the map unchanged. *)
Theorem fill_missing_pairs_reference (responses : dict pyval) :
  (dict_get responses "ETH-USDT" = None ->
   fill_missing_pairs responses = Raise (KeyError "ETH-USDT")) /\
  (dict_get responses "ETH-USDT" = Some (VList []) ->
   NoDup (keys responses) ->
   (forall k v, In (k, v) responses -> exists l, v = VList l) ->
   fill_missing_pairs responses = Ok responses).
Proof.
  unfold fill_missing_pairs. split.
  - now intros ->.
  - intros -> Hnd Hwf. simpl.
    now apply fill_pairs_empty_reference.
Qed.

Lemma fill_missing_pairs_reference_witness :
  fill_missing_pairs no_reference = Raise (KeyError "ETH-USDT") /\
  fill_missing_pairs empty_reference = Ok empty_reference.
Proof.
  split.
  - apply (proj1 (fill_missing_pairs_reference no_reference)). reflexivity.
  - apply (proj2 (fill_missing_pairs_reference empty_reference)).
    + reflexivity.
    + unfold empty_reference, keys. simpl.
      repeat constructor; simpl; intuition discriminate.
    + unfold empty_reference. simpl.
      intros k v [H | [H | [H | []]]]; injection H as <- <-; eauto.
Defined.

(** The rows that the code synthesises, read off its definition: column 0
    of the donor over column 0 of the reference, rounded, and column 1 of
    the reference. *)
Lemma synth_row_columns eth_usdt i r a e b q p c :
  py_getitem r 0 = Ok a ->
  py_getitem eth_usdt i = Ok e ->
  py_getitem e 0 = Ok b ->
  py_truediv a b = Ok q ->
  py_round9 q = Ok p ->
  py_getitem e 1 = Ok c ->
  synth_row eth_usdt i r = Ok (VList [p; c]).
Proof.
  intros Ha He Hb Hq Hp Hc. unfold synth_row.
  rewrite Ha; simpl. rewrite He; simpl. rewrite Hb; simpl.
  rewrite Hq; simpl. rewrite Hp; simpl. now rewrite Hc.
Qed.

(** On rows of two columns (close price, close time) the arithmetic is that
    of the specification's example. *)
Example reconstruction_two_columns :
  fill_missing_pairs two_column_example
  = Ok (dict_set two_column_example "X-ETH"
          (VList [VList [VFloat 0.05; VInt 1700000000999];
                  VList [VFloat 0.054545455; VInt 1700000001999]])).
Proof. vm_compute. reflexivity. Qed.

(** C1, at the rows that the fetcher records (open, high, low, close, close
    time): the pair [ADA-ETH] is repaired from the donor [ADA-USDT] with the
    ratio of the open prices, 5/100 and 6/110, paired with the high price of
    the reference, 101 and 111.  The rows that the claim describes are the
    ratio of the close prices, 5.1/100.5 and 6.2/110.5, with the close time
    of the reference. *)
Theorem reconstruction_reads_open_and_high :
  fill_missing_pairs klines_with_gap
  = Ok (dict_set klines_with_gap "ADA-ETH"
          (VList [VList [VFloat 0.05; VFloat 101];
                  VList [VFloat 0.054545455; VFloat 111]])) /\
  spec_synth_row eth_usdt_rows 0 ada_usdt_row0
  = Ok (VList [VFloat 0.050746269; VInt 1700000000999]) /\
  spec_synth_row eth_usdt_rows 1 ada_usdt_row1
  = Ok (VList [VFloat 0.056108597; VInt 1700000001999]) /\
  synth_row eth_usdt_rows 0 ada_usdt_row0 = Ok (VList [VFloat 0.05; VFloat 101]) /\
  synth_row eth_usdt_rows 1 ada_usdt_row1 = Ok (VList [VFloat 0.054545455; VFloat 111]).
Proof. repeat split; vm_compute; reflexivity. Qed.

(** ** The retry loop of a task *)

Lemma attempt_loop_cons_trace net b a rest :
  fst (attempt_loop net b (a :: rest)) =
  match net a with
  | Timeout =>
      match backoff b a with
      | Ok d => Get a :: Sleep d :: fst (attempt_loop net b rest)
      | Raise _ => [Get a]
      end
  | _ => [Get a]
  end.
Proof.
  simpl. destruct (net a); try reflexivity.
  destruct (backoff b a); try reflexivity.
  now destruct (attempt_loop net b rest).
Qed.

Lemma attempt_loop_cons_result net b a rest :
  snd (attempt_loop net b (a :: rest)) =
  match net a with
  | Timeout =>
      match backoff b a with
      | Ok _ => snd (attempt_loop net b rest)
      | Raise e => Raise e
      end
  | Failure => Ok (VList [])
  | Response body => Ok body
  end.
Proof.
  simpl. destruct (net a); try reflexivity.
  destruct (backoff b a); try reflexivity.
  now destruct (attempt_loop net b rest).
Qed.

Lemma get_single_pair_trace rt self net pair :
  fst (get_single_pair rt self net pair)
  = fst (attempt_loop net (init_backoff self) (seq 0 (Z.to_nat (pair_retries self)))).
Proof.
  unfold get_single_pair. now destruct (attempt_loop _ _ _).
Qed.

Lemma get_single_pair_result rt self net pair :
  snd (get_single_pair rt self net pair)
  = (resp <- snd (attempt_loop net (init_backoff self)
                    (seq 0 (Z.to_nat (pair_retries self)))) ;;
     resp <- normalise rt resp ;;
     Ok (dict_set (responses self) pair resp)).
Proof.
  unfold get_single_pair. now destruct (attempt_loop _ _ _).
Qed.

(** The sleeps of the loop over the attempts [a, a+1, ...]: a sleep
    immediately before request [k] follows the timeout of request [k-1] and
    lasts [init_backoff * 2**(k-1)]. *)
Lemma attempt_loop_wait_before net b n : forall a k d,
  wait_before (fst (attempt_loop net b (seq a n))) k = Some d ->
  exists j, k = S j /\ (a <= j)%nat /\ net j = Timeout /\ backoff b j = Ok d.
Proof.
  induction n as [|n IH]; intros a k d; [discriminate|].
  change (seq a (S n)) with (a :: seq (S a) n).
  rewrite attempt_loop_cons_trace.
  destruct (net a) eqn:Ea; try discriminate.
  destruct (backoff b a) as [d0|] eqn:Eb; try discriminate.
  change (wait_before (Get a :: Sleep d0 :: ?t) k)
    with (wait_before (Sleep d0 :: t) k).
  destruct n as [|n'].
  - discriminate.
  - specialize (IH (S a) k d). revert IH.
    change (seq (S a) (S n')) with (S a :: seq (S (S a)) n').
    rewrite attempt_loop_cons_trace.
    set (tl := match net (S a) with
               | Timeout =>
                   match backoff b (S a) with
                   | Ok d1 => Get (S a) :: Sleep d1 :: fst (attempt_loop net b (seq (S (S a)) n'))
                   | Raise _ => [Get (S a)]
                   end
               | _ => [Get (S a)]
               end).
    assert (Htl : exists t, tl = Get (S a) :: t).
    { unfold tl. destruct (net (S a)); eauto. destruct (backoff b (S a)); eauto. }
    destruct Htl as [t ->]. intros IH.
    change (wait_before (Sleep d0 :: Get (S a) :: t) k)
      with (if Nat.eqb (S a) k then Some d0 else wait_before (Get (S a) :: t) k).
    destruct (Nat.eqb (S a) k) eqn:E.
    + apply Nat.eqb_eq in E. intros [= <-]. exists a. subst k. auto.
    + intros H. destruct (IH H) as [j [-> [Hle [Hn Hb]]]].
      exists j. repeat split; auto. lia.
Qed.

(** Every request of the loop after the first is preceded by a sleep. *)
Lemma attempt_loop_request_preceded net b n : forall a k,
  In (Get k) (fst (attempt_loop net b (seq a n))) ->
  k = a \/ exists d, wait_before (fst (attempt_loop net b (seq a n))) k = Some d.
Proof.
  induction n as [|n IH]; intros a k; [intros []|].
  change (seq a (S n)) with (a :: seq (S a) n).
  rewrite attempt_loop_cons_trace.
  destruct (net a) eqn:Ea; try (intros [[= ->] | []]; now left).
  destruct (backoff b a) as [d0|] eqn:Eb; try (intros [[= ->] | []]; now left).
  intros [[= ->] | [H | H]]; [now left | discriminate |].
  right.
  change (wait_before (Get a :: Sleep d0 :: ?t) k)
    with (wait_before (Sleep d0 :: t) k).
  destruct n as [|n']; [destruct H|].
  specialize (IH (S a) k H). revert H IH.
  change (seq (S a) (S n')) with (S a :: seq (S (S a)) n').
  rewrite attempt_loop_cons_trace.
  set (tl := match net (S a) with
             | Timeout =>
                 match backoff b (S a) with
                 | Ok d1 => Get (S a) :: Sleep d1 :: fst (attempt_loop net b (seq (S (S a)) n'))
                 | Raise _ => [Get (S a)]
                 end
             | _ => [Get (S a)]
             end).
  assert (Htl : exists t, tl = Get (S a) :: t).
  { unfold tl. destruct (net (S a)); eauto. destruct (backoff b (S a)); eauto. }
  destruct Htl as [t ->]. intros H IH.
  change (wait_before (Sleep d0 :: Get (S a) :: t) k)
    with (if Nat.eqb (S a) k then Some d0 else wait_before (Get (S a) :: t) k).
  destruct (Nat.eqb (S a) k) eqn:E; [eauto|].
  apply Nat.eqb_neq in E.
  destruct IH as [-> | IH]; [congruence | exact IH].
Qed.

(** C7, the claim at an input: with three retries, an initial backoff of one
    second and a server that never answers in time, no wait comes before
    request 0, and the wait before request 1 is [1 * 2**0 = 1] second, not
    [1 * 2**1 = 2]. *)
Lemma wait_before_second_attempt_is_initial_backoff :
  fst (get_single_pair plain_runtime window_and_duration always_timeout "ETH-USDT")
  = [Get 0; Sleep 1; Get 1; Sleep 2; Get 2; Sleep 4] /\
  wait_before
    (fst (get_single_pair plain_runtime window_and_duration always_timeout "ETH-USDT")) 0
  = None /\
  wait_before
    (fst (get_single_pair plain_runtime window_and_duration always_timeout "ETH-USDT")) 1
  = Some 1%float /\
  backoff (init_backoff window_and_duration) 1 = Ok 2%float /\
  wait_before
    (fst (get_single_pair plain_runtime window_and_duration always_timeout "ETH-USDT")) 1
  <> Some 2%float.
Proof.
  repeat split; try (vm_compute; reflexivity).
  vm_compute. intros H. apply (f_equal (fun o => match o with Some x => Prim2SF x | None => S754_nan end)) in H.
  vm_compute in H. discriminate.
Qed.

(** C7, as the code has it.  In the trace of a task no wait comes before
    request 0; every later request [k+1] is immediately preceded by a wait;
    and the wait before request [k+1] follows the timeout of request [k] and
    lasts [init_backoff * 2**k]. *)
Theorem backoff_after_timed_out_attempt
        (rt : runtime) (self : BinanceKlinesFetcher.t) (net : nat -> outcome)
        (pair : string) :
  wait_before (fst (get_single_pair rt self net pair)) 0 = None /\
  (forall k, In (Get (S k)) (fst (get_single_pair rt self net pair)) ->
     exists d, wait_before (fst (get_single_pair rt self net pair)) (S k) = Some d) /\
  (forall k d, wait_before (fst (get_single_pair rt self net pair)) (S k) = Some d ->
     net k = Timeout /\ backoff (init_backoff self) k = Ok d).
Proof.
  rewrite get_single_pair_trace.
  split; [|split].
  - destruct (wait_before _ 0) as [d|] eqn:E; [|reflexivity].
    apply attempt_loop_wait_before in E. destruct E as [j [E _]]. discriminate.
  - intros k H. apply attempt_loop_request_preceded in H.
    destruct H as [H | H]; [discriminate | exact H].
  - intros k d H. apply attempt_loop_wait_before in H.
    destruct H as [j [[= <-] [_ [Hn Hb]]]]. now split.
Qed.

Lemma backoff_after_timed_out_attempt_witness :
  always_timeout 1%nat = Timeout /\
  backoff (init_backoff window_and_duration) 1 = Ok 2%float.
Proof.
  apply (proj2 (proj2 (backoff_after_timed_out_attempt
                         plain_runtime window_and_duration always_timeout "ETH-USDT"))
           1%nat 2%float).
  vm_compute. reflexivity.
Defined.

(** [2**k] converts to a float for every [k] below 1024. *)
Lemma pow2_converts :
  forallb (fun k => negb (raises (float_of_Z (2 ^ Z.of_nat k)))) (seq 0 1024) = true.
Proof. vm_compute. reflexivity. Qed.

Lemma backoff_defined b k : (k < 1024)%nat -> exists d, backoff b k = Ok d.
Proof.
  intros Hk. pose proof pow2_converts as H.
  rewrite forallb_forall in H. specialize (H k).
  assert (Hin : In k (seq 0 1024)) by (apply in_seq; lia).
  apply H in Hin. unfold backoff.
  destruct (float_of_Z (2 ^ Z.of_nat k)) as [f|]; [simpl; eauto | discriminate].
Qed.

Lemma attempt_loop_always_timeout b n : forall a,
  (a + n <= 1024)%nat ->
  snd (attempt_loop always_timeout b (seq a n)) = Ok (VList []) /\
  requests (fst (attempt_loop always_timeout b (seq a n))) = n.
Proof.
  induction n as [|n IH]; intros a Ha; [now split|].
  change (seq a (S n)) with (a :: seq (S a) n).
  rewrite attempt_loop_cons_trace, attempt_loop_cons_result.
  unfold always_timeout at 1 3.
  destruct (backoff_defined b a) as [d ->]; [lia|].
  destruct (IH (S a)) as [H1 H2]; [lia|].
  split; [exact H1|].
  unfold requests in *. simpl. now rewrite H2.
Qed.

(** As long as the backoff can be computed, that is for at most 1024
    retries, a pair that always times out is requested [pair_retries] times,
    an empty series is recorded for it and nothing is raised. *)
Lemma always_timeout_within_float_range
      (rt : runtime) (self : BinanceKlinesFetcher.t) (pair : string) :
  pair_retries self <= 1024 ->
  snd (get_single_pair rt self always_timeout pair)
  = Ok (dict_set (responses self) pair (VList [])) /\
  requests (fst (get_single_pair rt self always_timeout pair))
  = Z.to_nat (pair_retries self).
Proof.
  intros H. rewrite get_single_pair_result, get_single_pair_trace.
  destruct (attempt_loop_always_timeout (init_backoff self)
              (Z.to_nat (pair_retries self)) 0%nat) as [H1 H2]; [lia|].
  now rewrite H1, H2.
Qed.

(** C6, at 1025 retries: the task sends its 1025 requests, and the backoff
    after the last one, [init_backoff * 2**1024], raises [OverflowError]
    instead of the empty series being recorded. *)
Theorem always_timeout_overflows_after_1025_attempts (rt : runtime) :
  snd (get_single_pair rt many_retries always_timeout "ETH-USDT") = Raise OverflowError /\
  requests (fst (get_single_pair rt many_retries always_timeout "ETH-USDT")) = 1025%nat.
Proof.
  rewrite get_single_pair_result, get_single_pair_trace.
  assert (H : snd (attempt_loop always_timeout (init_backoff many_retries)
                     (seq 0 (Z.to_nat (pair_retries many_retries))))
              = Raise OverflowError) by (vm_compute; reflexivity).
  rewrite H. split; [reflexivity | vm_compute; reflexivity].
Qed.

(** ** The batch *)

(** C5, at a batch of three pairs in which the response for [BTC-USDT]
    decodes to a list with a row of one field: the projection of that row
    raises [IndexError] outside the [try] of the task, [gather] re-raises it,
    and the batch returns no map, in whichever order the tasks end. *)
Theorem malformed_row_aborts_batch (rt : runtime) :
  snd (get_single_pair rt window_and_duration (short_row_net 1 "") "BTC-USDT")
  = Raise IndexError /\
  fetch_pairs_klines rt window_and_duration some_instant short_row_net [0; 1; 2]%nat
  = Raise IndexError /\
  fetch_pairs_klines rt window_and_duration some_instant short_row_net [2; 1; 0]%nat
  = Raise IndexError.
Proof. repeat split; vm_compute; reflexivity. Qed.

(** ** The keyword arguments of a dispatched request *)

Lemma dict_get_update_other {V : Type} (d r : dict V) k :
  dict_get r k = None -> dict_get (dict_update d r) k = dict_get d k.
Proof.
  unfold dict_update. revert d.
  induction r as [|[k0 v0] r IH]; intros d; simpl; [reflexivity|].
  destruct (String.eqb k0 k) eqn:E; [discriminate|].
  intros H. rewrite IH by exact H.
  apply dict_get_set_other. now apply String.eqb_neq.
Qed.

Lemma dict_get_update {V : Type} (d r : dict V) k :
  NoDup (keys r) ->
  dict_get (dict_update d r) k
  = match dict_get r k with Some v => Some v | None => dict_get d k end.
Proof.
  unfold dict_update. revert d.
  induction r as [|[k0 v0] r IH]; intros d Hnd; simpl; [reflexivity|].
  inversion Hnd as [|? ? Hnotin Hnd']; subst.
  destruct (String.eqb k0 k) eqn:E.
  - apply String.eqb_eq in E. subst k0.
    apply dict_get_None in Hnotin.
    fold (dict_update (dict_set d k v0) r).
    rewrite dict_get_update_other by exact Hnotin.
    apply dict_get_set_same.
  - rewrite IH by exact Hnd'.
    destruct (dict_get r k); [reflexivity|].
    apply dict_get_set_other. now apply String.eqb_neq.
Qed.

Lemma dict_pop_get_other {V : Type} (d d' : dict V) k k' v :
  dict_pop d k = Some (v, d') -> k <> k' -> dict_get d' k' = dict_get d k'.
Proof.
  unfold dict_pop. destruct (dict_get d k); [|discriminate].
  intros [= _ <-] Hne. now apply dict_get_del_other.
Qed.

Lemma pop_credentials_get kwargs k :
  k <> "api_key" -> k <> "api_secret" ->
  dict_get (snd (pop_credentials kwargs)) k = dict_get kwargs k.
Proof.
  intros H1 H2. unfold pop_credentials.
  destruct (dict_pop kwargs "api_key") as [[a kw1]|] eqn:E1; [|reflexivity].
  assert (G : dict_get kw1 k = dict_get kwargs k)
    by (eapply dict_pop_get_other; eauto).
  destruct (dict_pop kw1 "api_secret") as [[s kw2]|] eqn:E2; simpl; [|exact G].
  rewrite <- G. eapply dict_pop_get_other; eauto.
Qed.

Lemma rotate_credentials_get self kwargs k :
  k <> "api_key" -> k <> "api_secret" ->
  dict_get (snd (rotate_credentials self kwargs)) k = dict_get kwargs k.
Proof.
  intros H1 H2. rewrite <- (pop_credentials_get kwargs k H1 H2).
  unfold rotate_credentials.
  destruct (pop_credentials kwargs) as [[a s] kw].
  now destruct (py_truthy a && py_truthy s).
Qed.

Lemma rotate_credentials_standing self kwargs :
  requests_params (fst (rotate_credentials self kwargs)) = requests_params self /\
  ts_offset (fst (rotate_credentials self kwargs)) = ts_offset self.
Proof.
  unfold rotate_credentials.
  destruct (pop_credentials kwargs) as [[a s] kw].
  now destruct (py_truthy a && py_truthy s).
Qed.

(** After lines 190-195 the timeout is that of the standing parameters, or
    10: what the caller passed as [timeout] is gone. *)
Lemma apply_defaults_timeout self kwargs :
  (forall rp, requests_params self = Some rp -> NoDup (keys rp)) ->
  dict_get (apply_defaults self kwargs) "timeout" = Some (standing_timeout self).
Proof.
  intros Hnd. unfold apply_defaults, standing_timeout.
  destruct (requests_params self) as [[|kv rp]|] eqn:E.
  - apply dict_get_set_same.
  - rewrite dict_get_update by (now apply Hnd).
    destruct (dict_get (kv :: rp) "timeout"); [reflexivity|].
    apply dict_get_set_same.
  - apply dict_get_set_same.
Qed.

Lemma apply_defaults_data self kwargs :
  (forall rp, requests_params self = Some rp -> dict_get rp "data" = None) ->
  dict_get (apply_defaults self kwargs) "data" = dict_get kwargs "data".
Proof.
  intros Hd. unfold apply_defaults.
  assert (G : dict_get (dict_set kwargs "timeout" (VInt 10)) "data" = dict_get kwargs "data")
    by (apply dict_get_set_other; discriminate).
  destruct (requests_params self) as [[|kv rp]|] eqn:E; try exact G.
  rewrite dict_get_update_other by (now apply Hd). exact G.
Qed.

Lemma merge_nested_params_timeout kwargs kwargs' data aliased :
  (forall d rp, dict_get kwargs "data" = Some (VDict d) ->
                dict_get d "requests_params" = Some rp ->
                exists r, rp = VDict r /\ NoDup (keys r)) ->
  merge_nested_params kwargs = Ok (kwargs', data, aliased) ->
  dict_get kwargs' "timeout"
  = match nested_timeout kwargs with
    | Some v => Some v
    | None => dict_get kwargs "timeout"
    end.
Proof.
  intros Hwf. unfold merge_nested_params, nested_timeout.
  destruct (dict_get kwargs "data") as [v|] eqn:Ed.
  2: { now intros [= <- _ _]. }
  destruct v as [| | | | | | |d]; try (now intros [= <- _ _]).
  destruct d as [|kv d].
  { now intros [= <- _ _]. }
  unfold dict_pop.
  destruct (dict_get (kv :: d) "requests_params") as [rp|] eqn:Er.
  2: { now intros [= <- _ _]. }
  destruct (Hwf _ _ eq_refl Er) as [r [-> Hnd]].
  simpl kwargs_update. simpl bind. intros [= <- _ _].
  rewrite dict_get_update by exact Hnd.
  destruct (dict_get r "timeout"); [reflexivity|].
  apply dict_get_set_other. discriminate.
Qed.

Lemma sign_request_frame rt self ts kwargs data aliased kwargs' data' k :
  sign_request rt self ts kwargs data aliased = Ok (kwargs', data') ->
  k <> "data" -> dict_get kwargs' k = dict_get kwargs k.
Proof.
  unfold sign_request.
  destruct (dict_get kwargs "data") as [v|]; [|discriminate].
  destruct v; try discriminate.
  destruct (_generate_signature rt self _) as [s|]; simpl; [|discriminate].
  intros [= <- _] Hk. apply dict_get_set_other. congruence.
Qed.

(** Lines 206-227 leave every keyword argument other than [data] and
    [params] as lines 190-204 set it. *)
Lemma request_kwargs_frame rt self ts method signed force_params kwargs kwf :
  snd (request_kwargs rt self ts method signed force_params kwargs) = Ok kwf ->
  exists kwm data aliased,
    merge_nested_params
      (apply_defaults (fst (rotate_credentials self kwargs))
                      (snd (rotate_credentials self kwargs)))
    = Ok (kwm, data, aliased) /\
    forall k, k <> "data" -> k <> "params" -> dict_get kwf k = dict_get kwm k.
Proof.
  unfold request_kwargs.
  destruct (sigterm self); [discriminate|].
  destruct (rotate_credentials self kwargs) as [self' kw']. simpl fst. simpl snd.
  destruct (merge_nested_params (apply_defaults self' kw')) as [[[kwm data] aliased]|];
    simpl; [|discriminate].
  intros H. exists kwm, data, aliased. split; [reflexivity|].
  intros k Hd Hp.
  assert (S : exists kws datas,
             (if signed then sign_request rt self' ts kwm data aliased
              else Ok (kwm, data)) = Ok (kws, datas) /\
             dict_get kws k = dict_get kwm k).
  { destruct signed.
    - destruct (sign_request rt self' ts kwm data aliased) as [[kws datas]|] eqn:Es;
        [|discriminate].
      exists kws, datas. split; [reflexivity|].
      eapply sign_request_frame; eauto.
    - eauto. }
  destruct S as [kws [datas [Es Hk]]]. rewrite Es in H. simpl in H.
  rewrite <- Hk.
  destruct (py_truthy datas); [|now injection H as <-].
  destruct (order_and_strip kws) as [params|]; simpl in H; [|discriminate].
  destruct (String.eqb method "get" || force_params); injection H as <-.
  - rewrite dict_get_del_other by congruence.
    apply dict_get_set_other. congruence.
  - apply dict_get_set_other. congruence.
Qed.

Lemma effective_timeout_ignores_caller self kwargs v :
  effective_timeout self (dict_set kwargs "timeout" v) = effective_timeout self kwargs.
Proof.
  unfold effective_timeout, nested_timeout.
  now rewrite dict_get_set_other by discriminate.
Qed.

(** C10, the claim at an input: on an instance without standing parameters,
    a call that passes [timeout=5] and nests [requests_params] with a
    timeout of 30 in its [data] is dispatched with the timeout 30: the
    caller's 5 is overwritten, and the override does not come from the
    standing parameters. *)
Lemma nested_requests_params_override_timeout :
  requests_params (client (VStr "secret") None) = None /\
  snd (request_kwargs plain_runtime (client (VStr "secret") None) 0 "get" false false
         call_with_nested_timeout)
  = Ok [("timeout", VInt 30); ("params", VStr "symbol=ETHUSDT")].
Proof. split; [reflexivity | vm_compute; reflexivity]. Qed.

(** C10, as the code has it.  Whenever a request is dispatched, its timeout
    is [effective_timeout]: the entry of the [requests_params] nested in the
    per-call [data] when there is one, else the entry of the standing
    [requests_params], else 10.  The [timeout] keyword of the caller has no
    part in it.  (The standing parameters are taken not to rebind [data],
    and nested parameters to be a dictionary.) *)
Theorem dispatched_timeout
        (rt : runtime) (self : BinanceRestClient.t) (ts : Z) (method : string)
        (signed force_params : bool) (kwargs kwf : dict pyval) :
  (forall rp, requests_params self = Some rp ->
              NoDup (keys rp) /\ dict_get rp "data" = None) ->
  (forall d rp, dict_get kwargs "data" = Some (VDict d) ->
                dict_get d "requests_params" = Some rp ->
                exists r, rp = VDict r /\ NoDup (keys r)) ->
  snd (request_kwargs rt self ts method signed force_params kwargs) = Ok kwf ->
  dict_get kwf "timeout" = Some (effective_timeout self kwargs) /\
  forall v, effective_timeout self (dict_set kwargs "timeout" v)
            = effective_timeout self kwargs.
Proof.
  intros Hst Hne H. split; [|intros v; apply effective_timeout_ignores_caller].
  apply request_kwargs_frame in H.
  destruct H as [kwm [data [aliased [Hm Hf]]]].
  rewrite Hf by discriminate.
  destruct (rotate_credentials_standing self kwargs) as [Hrp _].
  set (self' := fst (rotate_credentials self kwargs)) in *.
  set (kw' := snd (rotate_credentials self kwargs)) in *.
  assert (Hd : dict_get (apply_defaults self' kw') "data" = dict_get kwargs "data").
  { rewrite apply_defaults_data.
    - apply rotate_credentials_get; discriminate.
    - intros rp E. rewrite Hrp in E. now apply Hst. }
  erewrite merge_nested_params_timeout; [| |exact Hm].
  - unfold effective_timeout, nested_timeout. rewrite Hd.
    rewrite apply_defaults_timeout.
    + unfold standing_timeout. rewrite Hrp.
      now destruct (match dict_get kwargs "data" with
                    | Some (VDict d) =>
                        match dict_get d "requests_params" with
                        | Some (VDict r) => dict_get r "timeout"
                        | _ => None
                        end
                    | _ => None
                    end).
    + intros rp E. rewrite Hrp in E. now apply Hst.
  - intros d rp E1 E2. rewrite Hd in E1. eauto.
Qed.

Lemma dispatched_timeout_witness :
  dict_get [("timeout", VInt 30); ("params", VStr "symbol=ETHUSDT")] "timeout"
  = Some (effective_timeout (client (VStr "secret") None) call_with_nested_timeout) /\
  forall v, effective_timeout (client (VStr "secret") None)
              (dict_set call_with_nested_timeout "timeout" v)
            = effective_timeout (client (VStr "secret") None) call_with_nested_timeout.
Proof.
  apply (dispatched_timeout plain_runtime (client (VStr "secret") None) 0 "get"
           false false call_with_nested_timeout).
  - intros rp H. simpl in H. discriminate.
  - intros d rp H1 H2. simpl in H1. injection H1 as <-.
    simpl in H2. injection H2 as <-.
    eexists. split; [reflexivity|]. simpl. repeat constructor. simpl. tauto.
  - vm_compute. reflexivity.
Defined.

(** ** Null-valued parameters of a signed request *)



















(** A null nested [requests_params] ends the call before anything is
    signed: [kwargs.update(None)] raises. *)
Lemma null_requests_params_raise :
  snd (request_kwargs plain_runtime (client (VStr "secret") None) 1700000000000
         "get" true false call_with_null_requests_params)
  = Raise TypeError.
Proof. reflexivity. Qed.

(** * Further properties of the code *)

(** ** The canonical order *)

Lemma sort_by_key_sorted_id l : StronglySorted key_le l -> sort_by_key l = l.
Proof.
  induction 1 as [|x l Hs IH Hx]; [reflexivity|].
  simpl. rewrite IH. destruct l as [|y l']; [reflexivity|].
  simpl. inversion Hx as [|? ? Hxy _]; subst. unfold key_le in Hxy.
  assert (E : String.ltb (fst y) (fst x) = false).
  { unfold String.ltb, String.leb in *.
    rewrite (String.compare_antisym (fst y) (fst x)).
    now destruct (String.compare (fst x) (fst y)). }
  now rewrite E.
Qed.

Lemma filter_all {A : Type} (p : A -> bool) l :
  Forall (fun x => p x = true) l -> filter p l = l.
Proof.
  induction 1 as [|x l Hx _ IH]; [reflexivity|].
  simpl. now rewrite Hx, IH.
Qed.

Lemma dict_get_app_absent {V : Type} (d d' : dict V) k :
  Forall (fun kv => String.eqb (fst kv) k = false) d ->
  dict_get (d ++ d') k = dict_get d' k.
Proof.
  induction 1 as [|[k0 v0] d H _ IH]; [reflexivity|].
  simpl in *. now rewrite H.
Qed.

Lemma sorted_params_not_signature data :
  Forall (fun kv => negb (is_signature kv) = true)
         (sort_by_key (filter (fun kv => negb (is_signature kv)) data)).
Proof.
  apply (Permutation_Forall (Permutation_sym (sort_by_key_perm _))).
  apply Forall_forall. intros kv H. now apply filter_In in H.
Qed.

Lemma dict_set_fresh {V : Type} (d : dict V) k v :
  ~ In k (keys d) -> dict_set d k v = d ++ [(k, v)].
Proof.
  induction d as [|[k0 v0] d IH]; simpl; [reflexivity|].
  intros Hn. destruct (String.eqb k0 k) eqn:E.
  - apply String.eqb_eq in E. tauto.
  - f_equal. apply IH. tauto.
Qed.

Lemma dict_update_fresh {V : Type} (l : dict V) : forall d,
  NoDup (keys (d ++ l)) -> dict_update d l = d ++ l.
Proof.
  unfold dict_update.
  induction l as [|[k v] l IH]; intros d Hnd; simpl.
  - now rewrite app_nil_r.
  - rewrite dict_set_fresh.
    + rewrite IH; rewrite <- app_assoc; [reflexivity | exact Hnd].
    + unfold keys in Hnd. rewrite map_app in Hnd. simpl in Hnd.
      apply NoDup_remove_2 in Hnd. intros H. apply Hnd. apply in_or_app. now left.
Qed.

Lemma NoDup_keys_filter {V : Type} (p : string * V -> bool) (d : dict V) :
  NoDup (keys d) -> NoDup (keys (filter p d)).
Proof.
  induction d as [|[k v] d IH]; simpl; [auto|].
  intros Hnd. inversion Hnd as [|? ? Hn Hnd']; subst.
  destruct (p (k, v)); simpl; [|auto].
  constructor; [|auto].
  intros H. apply Hn. unfold keys in *. apply in_map_iff in H.
  destruct H as [[k1 v1] [E H]]. apply filter_In in H. destruct H as [H _].
  simpl in E. subst. change k with (fst (k, v1)). now apply in_map.
Qed.

(** The keys of the list that [_order_params] returns are distinct when
    those of the dict are: [dict] gives the list back, in its order. *)
Lemma dict_of_items_order_params (data : dict pyval) l :
  NoDup (keys data) -> _order_params data = Ok l -> dict_of_items l = l.
Proof.
  intros Hnd. rewrite _order_params_eq. intros [= <-].
  set (sorted := sort_by_key (filter (fun kv => negb (is_signature kv)) data)).
  pose proof (sorted_params_not_signature data) as Hns. fold sorted in Hns.
  assert (Hnds : NoDup (keys sorted)).
  { eapply Permutation_NoDup.
    - apply (Permutation_map fst), Permutation_sym, sort_by_key_perm.
    - now apply NoDup_keys_filter. }
  unfold dict_of_items. rewrite dict_update_fresh; [reflexivity|].
  simpl. unfold keys. rewrite map_app.
  destruct (dict_get data "signature"); simpl.
  - apply NoDup_app; [exact Hnds | repeat constructor; intros [] |].
    intros x Hx [<- | []]. apply in_map_iff in Hx. destruct Hx as [kv [E Hin]].
    rewrite Forall_forall in Hns. apply Hns in Hin.
    unfold is_signature in Hin. rewrite E in Hin. discriminate.
  - rewrite app_nil_r. exact Hnds.
Qed.

(** X1.  Canonicalisation is idempotent: the list that [_order_params]
    returns for a dict, made a dict again in its order ([dict(l)]), is
    returned as it is. *)
Theorem order_params_idempotent (data : dict pyval) :
  NoDup (keys data) ->
  exists l, _order_params data = Ok l /\ _order_params (dict_of_items l) = Ok l.
Proof.
  intros Hnd.
  destruct (_order_params data) as [l|] eqn:Hl.
  2: { rewrite _order_params_eq in Hl. discriminate. }
  exists l. split; [reflexivity|].
  rewrite (dict_of_items_order_params data l Hnd Hl).
  rewrite _order_params_eq in Hl. injection Hl as <-.
  rewrite _order_params_eq.
  set (sorted := sort_by_key (filter (fun kv => negb (is_signature kv)) data)).
  pose proof (sorted_params_not_signature data) as Hns. fold sorted in Hns.
  assert (Hk : Forall (fun kv : string * pyval => String.eqb (fst kv) "signature" = false)
                      sorted).
  { eapply Forall_impl; [|exact Hns]. intros kv H. unfold is_signature in H.
    now apply negb_true_iff in H. }
  rewrite filter_app, (filter_all _ sorted Hns), (dict_get_app_absent sorted _ _ Hk).
  destruct (dict_get data "signature") as [v|]; simpl.
  - rewrite app_nil_r, sort_by_key_sorted_id by apply sort_by_key_sorted. reflexivity.
  - rewrite !app_nil_r, sort_by_key_sorted_id by apply sort_by_key_sorted. reflexivity.
Qed.

Lemma order_params_idempotent_witness :
  exists l,
    _order_params [("symbol", VStr "ETHUSDT"); ("signature", VStr "ab"); ("limit", VInt 5)]
    = Ok l /\
    _order_params (dict_of_items l) = Ok l.
Proof.
  apply (order_params_idempotent
           [("symbol", VStr "ETHUSDT"); ("signature", VStr "ab"); ("limit", VInt 5)]).
  unfold keys. simpl.
  repeat (constructor; [simpl; intuition discriminate|]). constructor.
Defined.

Lemma NoDup_keys_In_eq {V : Type} (d : dict V) k v v' :
  NoDup (keys d) -> In (k, v) d -> In (k, v') d -> v = v'.
Proof.
  intros Hnd H1 H2. apply (In_dict_get d k v Hnd) in H1.
  apply (In_dict_get d k v' Hnd) in H2. congruence.
Qed.

Lemma sorted_perm_unique (l1 : list (string * pyval)) : forall l2,
  StronglySorted key_le l1 -> StronglySorted key_le l2 ->
  Permutation l1 l2 -> NoDup (keys l1) -> l1 = l2.
Proof.
  induction l1 as [|x l1 IH]; intros l2 H1 H2 Hp Hnd.
  - apply Permutation_nil in Hp. now subst.
  - destruct l2 as [|y l2]; [apply Permutation_sym, Permutation_nil in Hp; discriminate|].
    assert (Hxy : x = y).
    { assert (Hx : In x (y :: l2)) by (eapply Permutation_in; [exact Hp | now left]).
      assert (Hy : In y (x :: l1))
        by (eapply Permutation_in; [apply Permutation_sym; exact Hp | now left]).
      destruct Hx as [-> | Hx]; [reflexivity|].
      destruct Hy as [-> | Hy]; [reflexivity|].
      inversion H1 as [|? ? _ Hx1]; inversion H2 as [|? ? _ Hy2]; subst.
      rewrite Forall_forall in Hx1, Hy2.
      pose proof (Hx1 _ Hy) as Hle1. pose proof (Hy2 _ Hx) as Hle2.
      unfold key_le in *.
      assert (Hk : fst x = fst y) by (apply String.leb_antisym; assumption).
      destruct x as [kx vx], y as [ky vy]. simpl in Hk. subst ky.
      f_equal. eapply (NoDup_keys_In_eq ((kx, vx) :: l1)); [exact Hnd | now left | now right]. }
    subst y. f_equal. apply IH.
    + now inversion H1.
    + now inversion H2.
    + eapply Permutation_cons_inv; exact Hp.
    + now inversion Hnd.
Qed.

Lemma dict_get_perm {V : Type} (d d' : dict V) k :
  NoDup (keys d) -> Permutation d d' -> dict_get d k = dict_get d' k.
Proof.
  intros Hnd Hp.
  assert (Hnd' : NoDup (keys d')).
  { eapply Permutation_NoDup; [|exact Hnd]. unfold keys. now apply Permutation_map. }
  destruct (dict_get d k) as [v|] eqn:E.
  - symmetry. apply In_dict_get; [exact Hnd'|].
    eapply Permutation_in; [exact Hp|]. now apply dict_get_In.
  - destruct (dict_get d' k) as [v'|] eqn:E'; [|reflexivity].
    apply dict_get_In in E'.
    apply (Permutation_in _ (Permutation_sym Hp)) in E'.
    apply (In_dict_get d k v' Hnd) in E'. congruence.
Qed.

(** X2.  The canonical list does not depend on the order in which the
    parameters were inserted: two dictionaries with the same entries give
    the same list, hence the same signed string. *)
Theorem order_params_insertion_order (data data' : dict pyval) :
  NoDup (keys data) -> Permutation data data' ->
  _order_params data = _order_params data'.
Proof.
  intros Hnd Hp. rewrite !_order_params_eq.
  rewrite (dict_get_perm data data' "signature" Hnd Hp).
  f_equal. f_equal.
  assert (Hf : Permutation (filter (fun kv => negb (is_signature kv)) data)
                           (filter (fun kv => negb (is_signature kv)) data')).
  { clear Hnd. induction Hp; simpl.
    - constructor.
    - destruct (negb (is_signature x)); auto.
    - destruct (negb (is_signature x)), (negb (is_signature y)); auto. apply perm_swap.
    - etransitivity; eauto. }
  apply sorted_perm_unique; try apply sort_by_key_sorted.
  - rewrite !sort_by_key_perm. exact Hf.
  - eapply Permutation_NoDup.
    + unfold keys. apply Permutation_map. apply Permutation_sym, sort_by_key_perm.
    + clear Hp Hf. induction data as [|[k v] data IH]; simpl; [constructor|].
      inversion Hnd as [|? ? Hnotin Hnd']; subst.
      destruct (negb (is_signature (k, v))); simpl; [|now apply IH].
      constructor; [|now apply IH].
      intros Hin. apply Hnotin. unfold keys in *. apply in_map_iff in Hin.
      destruct Hin as [[k' v'] [E Hin]]. simpl in E. subst k'.
      apply filter_In in Hin. destruct Hin as [Hin _].
      change k with (fst (k, v')). now apply in_map.
Qed.

Lemma order_params_insertion_order_witness :
  _order_params params_symbol_first = _order_params params_limit_first.
Proof.
  apply order_params_insertion_order.
  - unfold params_symbol_first, keys. simpl.
    repeat constructor; simpl; intuition discriminate.
  - unfold params_symbol_first, params_limit_first.
    apply Permutation_sym.
    apply (Permutation_cons_app [("symbol", VStr "ETHUSDT"); ("signature", VStr "abc")] []).
    apply Permutation_refl.
Defined.

(** ** Dictionaries keep their keys unique *)

Lemma keys_dict_set {V : Type} (d : dict V) k v :
  keys (dict_set d k v) = keys d \/ (~ In k (keys d) /\ keys (dict_set d k v) = keys d ++ [k]).
Proof.
  induction d as [|[k0 v0] d IH]; simpl.
  - right. auto.
  - destruct (String.eqb k0 k) eqn:E; simpl.
    + now left.
    + apply String.eqb_neq in E. destruct IH as [IH | [Hn IH]].
      * left. now rewrite IH.
      * right. split; [intros [H | H]; auto|]. now rewrite IH.
Qed.

Lemma NoDup_keys_dict_set {V : Type} (d : dict V) k v :
  NoDup (keys d) -> NoDup (keys (dict_set d k v)).
Proof.
  intros Hnd. destruct (keys_dict_set d k v) as [-> | [Hn ->]]; [exact Hnd|].
  apply NoDup_app; [exact Hnd | repeat constructor; intros [] |].
  intros x Hx [<- | []]. contradiction.
Qed.


Lemma keys_dict_del_incl {V : Type} (d : dict V) k x :
  In x (keys (dict_del d k)) -> In x (keys d).
Proof.
  induction d as [|[k0 v0] d IH]; simpl; [tauto|].
  destruct (String.eqb k0 k); simpl; [now right|].
  intros [H | H]; [now left | right; auto].
Qed.

Lemma NoDup_keys_dict_del {V : Type} (d : dict V) k :
  NoDup (keys d) -> NoDup (keys (dict_del d k)).
Proof.
  induction d as [|[k0 v0] d IH]; simpl; [constructor|].
  intros Hnd. inversion Hnd as [|? ? Hn Hnd']; subst.
  destruct (String.eqb k0 k); simpl; [exact Hnd'|].
  constructor; [|now apply IH].
  intros H. apply Hn. eapply keys_dict_del_incl; exact H.
Qed.

Lemma dict_get_del_same {V : Type} (d : dict V) k :
  NoDup (keys d) -> dict_get (dict_del d k) k = None.
Proof.
  induction d as [|[k0 v0] d IH]; simpl; [reflexivity|].
  intros Hnd. inversion Hnd as [|? ? Hn Hnd']; subst.
  destruct (String.eqb k0 k) eqn:E; simpl.
  - apply String.eqb_eq in E. subst k0. now apply dict_get_None.
  - rewrite E. now apply IH.
Qed.



(** ** More on the keyword arguments of a dispatched request *)






Lemma rotate_credentials_last_response self kwargs :
  last_response (fst (rotate_credentials self kwargs)) = last_response self /\
  sigterm (fst (rotate_credentials self kwargs)) = sigterm self.
Proof.
  unfold rotate_credentials.
  destruct (pop_credentials kwargs) as [[a s] kw].
  now destruct (py_truthy a && py_truthy s).
Qed.

Lemma request_kwargs_last_response rt self ts method signed force_params kwargs :
  last_response (fst (request_kwargs rt self ts method signed force_params kwargs))
  = last_response self.
Proof.
  unfold request_kwargs. destruct (sigterm self); [reflexivity|].
  destruct (rotate_credentials_last_response self kwargs) as [H _].
  destruct (rotate_credentials self kwargs) as [self' kw']. exact H.
Qed.

(** X4.  A signed request is never dispatched without a secret: when no
    secret is configured (and none comes with the call) [_request] raises,
    whatever the session would answer, and records no response. *)
Theorem signed_request_needs_secret
        (rt : runtime) (session : string -> string -> dict pyval -> result response)
        (self : BinanceRestClient.t) (ts : Z) (method uri : string)
        (force_params throw_exception : bool) (kwargs : dict pyval) :
  py_truthy (api_secret (fst (rotate_credentials self kwargs))) = false ->
  (exists e, snd (_request rt session self ts method uri true force_params
                    throw_exception kwargs) = Raise e) /\
  last_response (fst (_request rt session self ts method uri true force_params
                        throw_exception kwargs)) = last_response self.
Proof.
  intros Hsec.
  assert (Hk : exists e, snd (request_kwargs rt self ts method true force_params kwargs)
                         = Raise e).
  { unfold request_kwargs. destruct (sigterm self); [simpl; eauto|].
    destruct (rotate_credentials self kwargs) as [self' kw']. simpl in *.
    destruct (merge_nested_params (apply_defaults self' kw')) as [[[kwm data] al]|];
      simpl; [|eauto].
    unfold sign_request.
    destruct (dict_get kwm "data") as [v|]; simpl; [|eauto].
    destruct v; simpl; eauto.
    unfold _generate_signature. rewrite Hsec. simpl. eauto. }
  destruct Hk as [e He].
  pose proof (request_kwargs_last_response rt self ts method true force_params kwargs) as Hl.
  unfold _request.
  destruct (request_kwargs rt self ts method true force_params kwargs) as [s r].
  simpl in *. subst r. simpl. split; [eauto | exact Hl].
Qed.

Lemma signed_request_needs_secret_witness :
  exists e, snd (_request plain_runtime (fun _ _ _ => Ok empty_list_200) (client VNone None)
                   0 "get" "https://api.binance.com/api/v3/order" true false true
                   call_with_null) = Raise e.
Proof.
  apply (signed_request_needs_secret plain_runtime (fun _ _ _ => Ok empty_list_200)
           (client VNone None) 0 "get" "https://api.binance.com/api/v3/order"
           false true call_with_null).
  reflexivity.
Defined.

(** X5.  A signed request that carries no [data] raises [KeyError]: the
    timestamp is written into [kwargs["data"]], which does not exist. *)
Theorem signed_request_without_data
        (rt : runtime) (self : BinanceRestClient.t) (ts : Z) (method : string)
        (force_params : bool) (kwargs : dict pyval) :
  sigterm self = false ->
  (forall rp, requests_params self = Some rp -> dict_get rp "data" = None) ->
  dict_get kwargs "data" = None ->
  snd (request_kwargs rt self ts method true force_params kwargs) = Raise (KeyError "data").
Proof.
  intros Hlive Hst Hdata. unfold request_kwargs. rewrite Hlive.
  pose proof (rotate_credentials_get self kwargs "data") as Hrd.
  destruct (rotate_credentials_standing self kwargs) as [Hrp _].
  destruct (rotate_credentials self kwargs) as [self' kw']. simpl in *.
  assert (Hd1 : dict_get (apply_defaults self' kw') "data" = None).
  { rewrite apply_defaults_data.
    - rewrite Hrd by discriminate. exact Hdata.
    - intros rp E. rewrite Hrp in E. now apply Hst. }
  unfold merge_nested_params. rewrite Hd1. simpl.
  unfold sign_request. now rewrite Hd1.
Qed.

Lemma signed_request_without_data_witness :
  snd (request_kwargs plain_runtime (client (VStr "secret") None) 0 "get" true false [])
  = Raise (KeyError "data").
Proof.
  apply signed_request_without_data.
  - reflexivity.
  - intros rp H. simpl in H. discriminate.
  - reflexivity.
Defined.

(** X6.  Once [stop] was called the instance refuses every request before
    anything is sent, and cannot be entered as a context again. *)
Theorem stopped_client_refuses
        (rt : runtime) (session : string -> string -> dict pyval -> result response)
        (self : BinanceRestClient.t) (ts : Z) (method uri : string)
        (signed force_params throw_exception : bool) (kwargs : dict pyval) :
  _request rt session (fst (stop self)) ts method uri signed force_params
           throw_exception kwargs
  = (fst (stop self), Raise AlreadyStoppedError) /\
  __enter__ (fst (stop self)) = Raise AlreadyStoppedError /\
  last_response (fst (stop self)) = last_response self.
Proof. repeat split. Qed.

(** X7.  Per-call credentials.  When the call carries both [api_key] and
    [api_secret], with true values, they replace those of the instance and
    neither is passed on.  When [api_key] is missing nothing is popped and
    the credentials stay, even if [api_secret] is there; when only
    [api_secret] is missing, [api_key] is popped and dropped. *)
Theorem per_call_credentials (self : BinanceRestClient.t) (kwargs : dict pyval) :
  NoDup (keys kwargs) ->
  (forall k s, dict_get kwargs "api_key" = Some k -> dict_get kwargs "api_secret" = Some s ->
     py_truthy k = true -> py_truthy s = true ->
     api_key (fst (rotate_credentials self kwargs)) = k /\
     api_secret (fst (rotate_credentials self kwargs)) = s /\
     dict_get (snd (rotate_credentials self kwargs)) "api_key" = None /\
     dict_get (snd (rotate_credentials self kwargs)) "api_secret" = None) /\
  (dict_get kwargs "api_key" = None ->
     rotate_credentials self kwargs = (self, kwargs)) /\
  (forall k, dict_get kwargs "api_key" = Some k -> dict_get kwargs "api_secret" = None ->
     rotate_credentials self kwargs = (self, dict_del kwargs "api_key")).
Proof.
  intros Hnd. split; [|split].
  - intros k s Hk Hs Tk Ts.
    unfold rotate_credentials, pop_credentials, dict_pop. rewrite Hk.
    rewrite dict_get_del_other by discriminate. rewrite Hs, Tk, Ts. simpl.
    repeat split.
    + rewrite dict_get_del_other by discriminate. now apply dict_get_del_same.
    + apply dict_get_del_same. now apply NoDup_keys_dict_del.
  - intros Hk. unfold rotate_credentials, pop_credentials, dict_pop. now rewrite Hk.
  - intros k Hk Hs. unfold rotate_credentials, pop_credentials, dict_pop. rewrite Hk.
    rewrite dict_get_del_other by discriminate. now rewrite Hs.
Qed.

Lemma per_call_credentials_witness :
  api_key (fst (rotate_credentials (client (VStr "secret") None) call_with_credentials))
  = VStr "k2" /\
  api_secret (fst (rotate_credentials (client (VStr "secret") None) call_with_credentials))
  = VStr "s2" /\
  dict_get (snd (rotate_credentials (client (VStr "secret") None) call_with_credentials))
           "api_key" = None /\
  dict_get (snd (rotate_credentials (client (VStr "secret") None) call_with_credentials))
           "api_secret" = None.
Proof.
  apply (proj1 (per_call_credentials (client (VStr "secret") None) call_with_credentials
                  ltac:(unfold call_with_credentials, keys; simpl;
                        repeat constructor; simpl; intuition discriminate)));
    reflexivity.
Defined.








(** ** Endpoints *)

Lemma first_symbol_spec wanted items : forall r,
  first_symbol wanted items = Ok r ->
  (r = VNone /\ Forall (other_symbol wanted) items) \/
  (exists pre post,
     items = pre ++ r :: post /\
     py_getitem_str r "symbol" = Ok (VStr wanted) /\
     Forall (other_symbol wanted) pre).
Proof.
  induction items as [|item items IH]; intros r; simpl.
  - intros [= <-]. left. split; [reflexivity | constructor].
  - destruct (py_getitem_str item "symbol") as [name|] eqn:En; simpl; [|discriminate].
    destruct (py_eq_str name wanted) eqn:Eq.
    + intros [= <-]. right. exists [], items. split; [reflexivity|]. split; [|constructor].
      destruct name; try discriminate. simpl in Eq. apply String.eqb_eq in Eq. now subst.
    + intros H. assert (Ho : other_symbol wanted item) by (exists name; auto).
      destruct (IH r H) as [[-> Hall] | [pre [post [-> [Hs Hpre]]]]].
      * left. split; [reflexivity | now constructor].
      * right. exists (item :: pre), post. split; [reflexivity|]. split; [exact Hs|].
        now constructor.
Qed.

(** X9.  [get_symbol_info] returns the first item of [res["symbols"]] whose
    [symbol] is the upper-cased argument, and [None] only when every item
    has another symbol; a body without [symbols] raises [KeyError]. *)
Theorem get_symbol_info_first_match
        (rt : runtime) (session : string -> string -> dict pyval -> result response)
        (api_url : string) (upper : string -> string)
        (self : BinanceRestClient.t) (ts : Z) (symbol : string) (body : dict pyval) :
  snd (_get rt session api_url self ts "exchangeInfo" false API_VERSION []) = Ok (VDict body) ->
  (dict_get body "symbols" = None ->
   snd (get_symbol_info rt session api_url upper self ts symbol)
   = Raise (KeyError "symbols")) /\
  (forall items r,
     dict_get body "symbols" = Some (VList items) ->
     snd (get_symbol_info rt session api_url upper self ts symbol) = Ok r ->
     (r = VNone /\ Forall (other_symbol (upper symbol)) items) \/
     (exists pre post,
        items = pre ++ r :: post /\
        py_getitem_str r "symbol" = Ok (VStr (upper symbol)) /\
        Forall (other_symbol (upper symbol)) pre)).
Proof.
  intros Hget. unfold get_symbol_info.
  destruct (_get rt session api_url self ts "exchangeInfo" false API_VERSION [])
    as [s [res|e]]; simpl in Hget; [|discriminate].
  injection Hget as ->. simpl. split.
  - now intros ->.
  - intros items r ->. simpl. apply first_symbol_spec.
Qed.

Lemma get_symbol_info_first_match_witness :
  exists pre post,
    exchange_info_items
    = pre ++ VDict [("symbol", VStr "BTCUSDT"); ("status", VStr "TRADING")] :: post /\
    Forall (other_symbol "BTCUSDT") pre.
Proof.
  destruct (proj2 (get_symbol_info_first_match plain_runtime exchange_info_session
                     "https://api.binance.com/api" (fun _ => "BTCUSDT")
                     (client VNone None) 0 "btcusdt"
                     [("symbols", VList exchange_info_items)] eq_refl)
              exchange_info_items
              (VDict [("symbol", VStr "BTCUSDT"); ("status", VStr "TRADING")])
              eq_refl eq_refl)
    as [[H _] | [pre [post [H1 [_ H3]]]]].
  - discriminate.
  - exists pre, post. auto.
Defined.

Lemma handle_response_status throw_exception r :
  (200 <= status_code r < 300 ->
   forall v, json r = Some v -> _handle_response throw_exception r = Ok v).
Proof.
  intros Hs v Hj. unfold _handle_response.
  assert (E : (200 <=? status_code r) && (status_code r <? 300) = true) by lia.
  rewrite E, andb_false_r, Hj. reflexivity.
Qed.

(** X10.  [_get_earliest_valid_timestamp] asks for one bar from
    [startTime=0]: the session is called once, with the timeout 10 and the
    query string [interval=..&limit=1&startTime=0&symbol=..]; the null
    [endTime] is not sent, the zero [startTime] is.  The result is
    [kline[0][0]], so a symbol without any bar raises [IndexError]. *)
Theorem earliest_timestamp_request
        (rt : runtime) (session : string -> string -> dict pyval -> result response)
        (api_url : string) (self : BinanceRestClient.t) (ts : Z)
        (symbol interval : string) :
  sigterm self = false ->
  requests_params self = None ->
  _get_earliest_valid_timestamp rt session api_url self ts (VStr symbol) (VStr interval)
  = match session "get" (api_url ++ "/v3/klines")%string
            [("timeout", VInt 10);
             ("params", VStr ("interval=" ++ interval
                              ++ "&limit=1&startTime=0&symbol=" ++ symbol)%string)] with
    | Raise e => (self, Raise e)
    | Ok r =>
        (set_response self r,
         kline <- _handle_response true r ;;
         first <- py_getitem kline 0 ;;
         py_getitem first 0)
    end /\
  forall r,
    session "get" (api_url ++ "/v3/klines")%string
            [("timeout", VInt 10);
             ("params", VStr ("interval=" ++ interval
                              ++ "&limit=1&startTime=0&symbol=" ++ symbol)%string)] = Ok r ->
    200 <= status_code r < 300 ->
    json r = Some (VList []) ->
    snd (_get_earliest_valid_timestamp rt session api_url self ts (VStr symbol) (VStr interval))
    = Raise IndexError.
Proof.
  intros Hlive Hrp.
  assert (E : _get_earliest_valid_timestamp rt session api_url self ts (VStr symbol) (VStr interval)
  = match session "get" (api_url ++ "/v3/klines")%string
            [("timeout", VInt 10);
             ("params", VStr ("interval=" ++ interval
                              ++ "&limit=1&startTime=0&symbol=" ++ symbol)%string)] with
    | Raise e => (self, Raise e)
    | Ok r =>
        (set_response self r,
         kline <- _handle_response true r ;;
         first <- py_getitem kline 0 ;;
         py_getitem first 0)
    end).
  { destruct self as [sg ak asec rp off lr]. simpl in Hlive, Hrp. subst sg rp.
    unfold _get_earliest_valid_timestamp, get_klines, _get, call_verb, _request_api, _request,
      request_kwargs, _create_api_uri, API_VERSION.
    simpl.
    destruct (session "get" _ _) as [r|e]; [|reflexivity].
    now destruct (_handle_response true r). }
  split; [exact E|].
  intros r Hr Hst Hj. rewrite E, Hr. simpl.
  rewrite (handle_response_status true r Hst _ Hj). reflexivity.
Qed.

(** ** The fetcher: configuration and URLs *)

Lemma Z_of_float_errors f e :
  Z_of_float f = Raise e ->
  e = OverflowError \/ e = ValueError "cannot convert float NaN to integer".
Proof.
  unfold Z_of_float. destruct (Prim2SF f); try discriminate; intros [= <-]; auto.
Qed.

Lemma datetime_sub_errors a b e : Datetime.sub a b = Raise e -> e = OverflowError.
Proof.
  unfold Datetime.sub.
  destruct ((Datetime.min_datetime <=? a - b) && (a - b <=? Datetime.max_datetime));
    [discriminate | now intros [= <-]].
Qed.

Lemma timedelta_minutes_errors m e :
  Datetime.timedelta_minutes m = Raise e ->
  e = OverflowError \/ e = ValueError "cannot convert float NaN to integer".
Proof.
  unfold Datetime.timedelta_minutes.
  destruct (Prim2SF m); try discriminate; try (intros [= <-]; auto).
  match goal with |- (if ?c then _ else _) = _ -> _ => destruct c end;
    [discriminate | intros [= <-]; auto].
Qed.

Lemma clock_window_errors now m e :
  clock_window now m = Raise e ->
  e = OverflowError \/ e = ValueError "cannot convert float NaN to integer".
Proof.
  unfold clock_window.
  destruct (Datetime.sub now 500000) as [utcNow|e1] eqn:E1; simpl.
  2: { intros [= <-]. left. eapply datetime_sub_errors; eauto. }
  unfold Datetime.timestamp_ms.
  destruct (Z_of_float (Datetime.timestamp utcNow * 1000)) as [u|e2] eqn:E2; simpl.
  2: { intros [= <-]. eapply Z_of_float_errors; eauto. }
  destruct (Datetime.timedelta_minutes m) as [delta|e3] eqn:E3; simpl.
  2: { intros [= <-]. eapply timedelta_minutes_errors; eauto. }
  destruct (Datetime.sub utcNow delta) as [start|e4] eqn:E4; simpl.
  2: { intros [= <-]. left. eapply datetime_sub_errors; eauto. }
  destruct (Z_of_float (Datetime.timestamp start * 1000)) as [f|e5] eqn:E5; simpl.
  2: { intros [= <-]. eapply Z_of_float_errors; eauto. }
  discriminate.
Qed.

(** X11.  The check of the constructor makes the configuration error of
    [get_backwards_range] unreachable: on a fetcher that [__init__]
    returned, it never raises "fromTime and toTime or n_mins are required". *)
Theorem constructed_fetcher_has_a_window
        (pairs : list string) (interval : string) (fromTime toTime : option Z)
        (n_mins : option float) (pair_retries : Z) (pair_timeout : option Z)
        (init_backoff : float) (self : BinanceKlinesFetcher.t) (now : Z) :
  __init__ pairs interval fromTime toTime n_mins pair_retries pair_timeout init_backoff
  = Ok self ->
  get_backwards_range self now <> Raise (ValueError required_msg).
Proof.
  unfold __init__, get_backwards_range.
  destruct (truthy_float n_mins) eqn:En.
  - rewrite andb_false_r. intros [= <-]. simpl. rewrite En. simpl.
    destruct n_mins as [m|]; [|discriminate].
    intros H. apply clock_window_errors in H. destruct H as [H | H]; discriminate.
  - rewrite andb_true_r.
    destruct (truthy_int fromTime && truthy_int toTime) eqn:Ew; [|discriminate].
    intros [= <-]. simpl. rewrite En, Ew. simpl.
    destruct fromTime, toTime; simpl in Ew; try discriminate;
      rewrite ?andb_false_r in Ew; discriminate.
Qed.

Lemma constructed_fetcher_has_a_window_witness :
  get_backwards_range window_only some_instant <> Raise (ValueError required_msg).
Proof.
  apply (constructed_fetcher_has_a_window
           ["ETH-USDT"; "BTC-USDT"; "ADA-ETH"] "1s"
           (Some 1600000000000) (Some 1600000300000) None 3 None 1).
  reflexivity.
Defined.

Lemma remove_char_contains c s :
  contains (String c EmptyString) (remove_char c s) = false.
Proof.
  induction s as [|c' s IH]; [reflexivity|].
  simpl remove_char. destruct (Ascii.eqb c' c) eqn:E; [exact IH|].
  simpl. rewrite IH.
  destruct (ascii_dec c c') as [-> | Hne].
  - now rewrite Ascii.eqb_refl in E.
  - reflexivity.
Qed.

(** X12.  [create_klines_urls] gives one URL per pair, in the order of the
    pairs; the symbol of each URL is the pair without its dashes, and has no
    dash left. *)
Theorem klines_urls_follow_pairs (self : BinanceKlinesFetcher.t) (start end_ : Z) :
  List.length (create_klines_urls self start end_) = List.length (pairs self) /\
  forall i p, nth_error (pairs self) i = Some p ->
    nth_error (create_klines_urls self start end_) i
    = Some (base_url ++ "?symbol=" ++ remove_char "-" p ++ "&interval=" ++ interval self
              ++ "&startTime=" ++ string_of_Z start
              ++ "&endTime=" ++ string_of_Z end_)%string /\
    contains "-" (remove_char "-" p) = false.
Proof.
  unfold create_klines_urls. split.
  - now rewrite !length_map.
  - intros i p H. split; [|apply remove_char_contains].
    rewrite map_map. now rewrite nth_error_map, H.
Qed.

Lemma klines_urls_follow_pairs_witness :
  nth_error (create_klines_urls window_only 1600000000000 1600000300000) 2
  = Some "https://api.binance.com/api/v3/klines?symbol=ADAETH&interval=1s&startTime=1600000000000&endTime=1600000300000"
  /\ contains "-" (remove_char "-" "ADA-ETH") = false.
Proof.
  apply (proj2 (klines_urls_follow_pairs window_only 1600000000000 1600000300000)
           2%nat "ADA-ETH").
  reflexivity.
Defined.

(** ** The fetcher: one task *)

Lemma attempt_loop_requests_le net b l :
  (requests (fst (attempt_loop net b l)) <= List.length l)%nat.
Proof.
  induction l as [|a l IH]; [apply Nat.le_refl|].
  rewrite attempt_loop_cons_trace.
  destruct (net a); try (unfold requests; simpl; lia).
  destruct (backoff b a); try (unfold requests; simpl; lia).
  unfold requests in *. simpl. lia.
Qed.

(** X13.  A task never sends more than [pair_retries] requests, whatever the
    network does; with no retry allowed it sends nothing and records an
    empty series. *)
Theorem requests_bounded_by_retries
        (rt : runtime) (self : BinanceKlinesFetcher.t) (net : nat -> outcome)
        (pair : string) :
  (requests (fst (get_single_pair rt self net pair)) <= Z.to_nat (pair_retries self))%nat /\
  (pair_retries self <= 0 ->
   get_single_pair rt self net pair = ([], Ok (dict_set (responses self) pair (VList [])))).
Proof.
  split.
  - rewrite get_single_pair_trace.
    etransitivity; [apply attempt_loop_requests_le|]. now rewrite length_seq.
  - intros H. unfold get_single_pair.
    replace (Z.to_nat (pair_retries self)) with 0%nat by lia. reflexivity.
Qed.

Lemma requests_bounded_by_retries_witness :
  get_single_pair plain_runtime (fetcher None None (Some 5%float) 0 1) always_timeout "ETH-USDT"
  = ([], Ok [("ETH-USDT", VList [])]).
Proof.
  apply (proj2 (requests_bounded_by_retries plain_runtime
                  (fetcher None None (Some 5%float) 0 1) always_timeout "ETH-USDT")).
  simpl. lia.
Defined.

(** The loop after [j] timeouts in a row: the outcome of request [a + j]
    decides. *)
Lemma attempt_loop_first_answer net b n : forall a j,
  (j < n)%nat -> (a + j <= 1024)%nat ->
  (forall i, (i < j)%nat -> net (a + i)%nat = Timeout) ->
  net (a + j)%nat <> Timeout ->
  snd (attempt_loop net b (seq a n))
  = match net (a + j)%nat with
    | Response body => Ok body
    | _ => Ok (VList [])
    end /\
  requests (fst (attempt_loop net b (seq a n))) = S j.
Proof.
  induction n as [|n IH]; intros a j Hj Ha Ht Hn; [lia|].
  change (seq a (S n)) with (a :: seq (S a) n).
  rewrite attempt_loop_cons_trace, attempt_loop_cons_result.
  destruct j as [|j].
  - rewrite Nat.add_0_r in *.
    destruct (net a); [contradiction | now split | now split].
  - pose proof (Ht 0%nat ltac:(lia)) as H0. rewrite Nat.add_0_r in H0. rewrite H0.
    destruct (backoff_defined b a) as [d ->]; [lia|].
    destruct (IH (S a) j) as [H1 H2]; try lia.
    + intros i Hi. replace (S a + i)%nat with (a + S i)%nat by lia. apply Ht. lia.
    + now replace (S a + j)%nat with (a + S j)%nat by lia.
    + replace (S a + j)%nat with (a + S j)%nat in H1 by lia.
      split; [exact H1|]. unfold requests in *. simpl. now rewrite H2.
Qed.

(** X14.  Errors other than a timeout are not retried.  When the request
    number [j] of a task, after [j] timeouts, fails with another exception,
    or is answered by a JSON object (as the exchange answers an error), the
    task stops there: it has sent [j + 1] requests, and records an empty
    series without raising. *)
Theorem failure_or_error_object_ends_task
        (rt : runtime) (self : BinanceKlinesFetcher.t) (net : nat -> outcome)
        (pair : string) (j : nat) :
  (Z.of_nat j < pair_retries self) -> (j <= 1024)%nat ->
  (forall i, (i < j)%nat -> net i = Timeout) ->
  (net j = Failure \/ exists d, net j = Response (VDict d)) ->
  snd (get_single_pair rt self net pair) = Ok (dict_set (responses self) pair (VList [])) /\
  requests (fst (get_single_pair rt self net pair)) = S j.
Proof.
  intros Hj Hb Ht Hn.
  rewrite get_single_pair_result, get_single_pair_trace.
  destruct (attempt_loop_first_answer net (init_backoff self)
              (Z.to_nat (pair_retries self)) 0%nat j) as [H1 H2]; try lia.
  - exact Ht.
  - simpl. destruct Hn as [-> | [d ->]]; discriminate.
  - rewrite H1, H2. split; [|reflexivity].
    simpl. destruct Hn as [-> | [d ->]]; reflexivity.
Qed.

Lemma failure_or_error_object_ends_task_witness :
  snd (get_single_pair plain_runtime window_only fails_third "ETH-USDT")
  = Ok [("ETH-USDT", VList [])] /\
  requests (fst (get_single_pair plain_runtime window_only fails_third "ETH-USDT")) = 3%nat.
Proof.
  apply (failure_or_error_object_ends_task plain_runtime window_only fails_third
           "ETH-USDT" 2%nat).
  - simpl. lia.
  - lia.
  - intros i Hi. destruct i as [|[|i]]; [reflexivity | reflexivity | lia].
  - left. reflexivity.
Defined.

Lemma project_row_kline rt r row : project_row rt r = Ok row -> is_kline row.
Proof.
  unfold project_row.
  destruct (py_getitem r 1) as [x1|]; simpl; [|discriminate].
  destruct (py_float rt x1) as [o|]; simpl; [|discriminate].
  destruct (py_getitem r 2) as [x2|]; simpl; [|discriminate].
  destruct (py_float rt x2) as [h|]; simpl; [|discriminate].
  destruct (py_getitem r 3) as [x3|]; simpl; [|discriminate].
  destruct (py_float rt x3) as [l|]; simpl; [|discriminate].
  destruct (py_getitem r 4) as [x4|]; simpl; [|discriminate].
  destruct (py_float rt x4) as [c|]; simpl; [|discriminate].
  destruct (py_getitem r 6) as [x6|]; simpl; [|discriminate].
  intros [= <-]. now exists o, h, l, c, x6.
Qed.

Lemma mapM_project_rows rt inp : forall rows,
  mapM (project_row rt) inp = Ok rows ->
  Forall is_kline rows /\ List.length rows = List.length inp.
Proof.
  induction inp as [|r inp IH]; intros rows; simpl.
  - intros [= <-]. split; [constructor | reflexivity].
  - destruct (project_row rt r) as [row|] eqn:E; simpl; [|discriminate].
    destruct (mapM (project_row rt) inp) as [rows'|]; simpl; [|discriminate].
    intros [= <-]. destruct (IH rows' eq_refl) as [H1 H2].
    split; [constructor; [eapply project_row_kline; eauto | exact H1] | simpl; now rewrite H2].
Qed.

(** X15.  What a task records is either a false value (the empty list, or
    the false JSON value that was received) or a list with one row of five
    columns, the first four of them floats, for each element of the
    response. *)
Theorem recorded_series_shape (rt : runtime) (resp v : pyval) :
  normalise rt resp = Ok v ->
  py_truthy v = false \/
  exists inp rows,
    py_iter resp = Ok inp /\ v = VList rows /\
    Forall is_kline rows /\ List.length rows = List.length inp.
Proof.
  unfold normalise.
  destruct (py_truthy match resp with VDict _ => VList [] | _ => resp end) eqn:Et.
  - assert (Hr : match resp with VDict _ => VList [] | _ => resp end = resp)
      by (destruct resp; try reflexivity; discriminate).
    rewrite Hr.
    destruct (py_iter resp) as [inp|]; simpl; [|discriminate].
    destruct (mapM (project_row rt) inp) as [rows|] eqn:Em; simpl; [|discriminate].
    intros [= <-]. right. exists inp, rows.
    destruct (mapM_project_rows rt inp rows Em). auto.
  - intros [= <-]. now left.
Qed.

Lemma recorded_series_shape_witness :
  py_truthy (VList [kline 5 5.2 4.9 5.1 1700000000999]) = false \/
  exists inp rows,
    py_iter (VList [raw_bar]) = Ok inp /\
    VList [kline 5 5.2 4.9 5.1 1700000000999] = VList rows /\
    Forall is_kline rows /\ List.length rows = List.length inp.
Proof.
  apply (recorded_series_shape plain_runtime (VList [raw_bar])).
  reflexivity.
Defined.

(** ** The fetcher: the batch *)

Lemma get_single_pair_keys rt self net pair r :
  snd (get_single_pair rt self net pair) = Ok r ->
  exists resp, r = dict_set (responses self) pair resp.
Proof.
  rewrite get_single_pair_result.
  destruct (snd (attempt_loop _ _ _)) as [resp0|]; simpl; [|discriminate].
  destruct (normalise rt resp0) as [resp|]; simpl; [|discriminate].
  intros [= <-]. eauto.
Qed.

Lemma In_keys_dict_set {V : Type} (d : dict V) k v x :
  In x (keys (dict_set d k v)) <-> In x (keys d) \/ x = k.
Proof.
  destruct (keys_dict_set d k v) as [E | [Hn E]]; rewrite E.
  - split; [tauto|]. intros [H | ->]; [exact H|].
    destruct (dict_get d k) as [w|] eqn:G.
    + apply dict_get_In in G. change k with (fst (k, w)). now apply in_map.
    + exfalso. apply dict_get_None in G.
      assert (keys (dict_set d k v) = keys d ++ [k]) by now apply keys_dict_set_absent.
      rewrite E in H. apply (f_equal (@List.length string)) in H.
      rewrite length_app in H. simpl in H. lia.
  - rewrite in_app_iff. simpl. intuition.
Qed.

Lemma gather_keys rt net tasks order : forall self m,
  gather rt self net tasks order = Ok m ->
  (NoDup (keys (responses self)) -> NoDup (keys m)) /\
  (forall k, In k (keys m) <->
             In k (keys (responses self)) \/
             exists i url, In i order /\ nth_error tasks i = Some (k, url)).
Proof.
  induction order as [|i order IH]; intros self m; simpl.
  - intros [= <-]. split; [auto|]. intros k. split; [auto|].
    intros [H | [i [url [[] _]]]]. exact H.
  - destruct (nth_error tasks i) as [[p url]|] eqn:En.
    + destruct (snd (get_single_pair rt self (net i url) p)) as [r|] eqn:Eg;
        simpl; [|discriminate].
      intros H. destruct (IH _ _ H) as [H1 H2]. simpl in H1, H2.
      destruct (get_single_pair_keys _ _ _ _ _ Eg) as [resp ->].
      split.
      * intros Hnd. apply H1. now apply NoDup_keys_dict_set.
      * intros k. rewrite H2, In_keys_dict_set. split.
        -- intros [[Hk | ->] | [i' [url' [Hi Hn]]]]; eauto 6.
        -- intros [Hk | [i' [url' [[<- | Hi] Hn]]]]; eauto 6.
           rewrite En in Hn. injection Hn as <- <-. auto.
    + intros H. destruct (IH _ _ H) as [H1 H2].
      split; [exact H1|]. intros k. rewrite H2. split.
      * intros [Hk | [i' [url' [Hi Hn]]]]; eauto 6.
      * intros [Hk | [i' [url' [[<- | Hi] Hn]]]]; eauto 6. congruence.
Qed.

Lemma nth_error_combine_both {A B : Type} (l1 : list A) : forall (l2 : list B) i a b,
  nth_error l1 i = Some a -> nth_error l2 i = Some b ->
  nth_error (combine l1 l2) i = Some (a, b).
Proof.
  induction l1 as [|x l1 IH]; intros [|y l2] [|i] a b; simpl; try discriminate.
  - now intros [= ->] [= ->].
  - apply IH.
Qed.

Lemma fetch_pairs_klines_keys rt self now net order m :
  fetch_pairs_klines rt self now net order = Ok m ->
  NoDup (keys m) /\
  (forall k, In k (keys m) ->  In k (pairs self)) /\
  (Permutation order (seq 0 (List.length (pairs self))) ->
   forall k, In k (pairs self) -> In k (keys m)).
Proof.
  unfold fetch_pairs_klines.
  destruct (get_backwards_range (with_responses self []) now) as [[f u]|]; simpl;
    [|discriminate].
  intros H. apply gather_keys in H. destruct H as [H1 H2]. simpl in H1, H2.
  split; [apply H1; constructor|]. split.
  - intros k Hk. apply H2 in Hk. destruct Hk as [[] | [i [url [_ Hn]]]].
    apply nth_error_In in Hn. now apply in_combine_l in Hn.
  - intros Hp k Hk. apply H2. right.
    apply In_nth_error in Hk. destruct Hk as [i Hi].
    assert (Hlen : (i < List.length (pairs self))%nat)
      by (apply nth_error_Some; congruence).
    set (urls := create_klines_urls (with_responses self []) f u) in *.
    assert (Hl : List.length urls = List.length (pairs self))
      by (unfold urls, create_klines_urls; now rewrite !length_map).
    destruct (nth_error urls i) as [url|] eqn:Eu.
    2: { apply nth_error_None in Eu. lia. }
    exists i, url. split.
    + apply (Permutation_in _ (Permutation_sym Hp)). apply in_seq. lia.
    + now apply nth_error_combine_both.
Qed.

(** X16.  Whenever the batch returns a map, once every task has ended, its
    keys are the requested pairs, each of them once: for pairs without
    repetition the map has exactly as many entries as pairs were asked
    for. *)
Theorem batch_keys_are_the_pairs
        (rt : runtime) (self : BinanceKlinesFetcher.t) (now : Z)
        (net : nat -> string -> nat -> outcome) (order : list nat) (m : dict pyval) :
  Permutation order (seq 0 (List.length (pairs self))) ->
  fetch_pairs_klines rt self now net order = Ok m ->
  NoDup (keys m) /\
  (forall k, In k (keys m) <-> In k (pairs self)) /\
  (NoDup (pairs self) -> Permutation (keys m) (pairs self)
                         /\ List.length m = List.length (pairs self)).
Proof.
  intros Hp H. destruct (fetch_pairs_klines_keys _ _ _ _ _ _ H) as [H1 [H2 H3]].
  assert (Hiff : forall k, In k (keys m) <-> In k (pairs self))
    by (intros k; split; [apply H2 | apply H3, Hp]).
  split; [exact H1|]. split; [exact Hiff|].
  intros Hnd.
  assert (Hperm : Permutation (keys m) (pairs self)) by now apply NoDup_Permutation.
  split; [exact Hperm|].
  apply Permutation_length in Hperm. unfold keys in Hperm. now rewrite length_map in Hperm.
Qed.

Lemma batch_keys_are_the_pairs_witness :
  exists m,
    fetch_pairs_klines plain_runtime window_only some_instant ada_fails_net [2; 0; 1]%nat
    = Ok m /\
    (forall k, In k (keys m) <-> In k (pairs window_only)) /\
    dict_get m "ADA-ETH" = Some (VList []).
Proof.
  eexists. split; [vm_compute; reflexivity|].
  split; [|reflexivity].
  apply (batch_keys_are_the_pairs plain_runtime window_only some_instant ada_fails_net
           [2; 0; 1]%nat).
  - simpl. apply Permutation_sym.
    apply (Permutation_cons_app [2%nat] [1%nat]). simpl.
    apply (Permutation_cons_app [2%nat] []). apply Permutation_refl.
  - vm_compute. reflexivity.
Defined.

(** X17.  [fetch_and_fill_klines] needs the reference pair among the pairs:
    on a fetcher that does not ask for [ETH-USDT], a batch that succeeds is
    followed by the [KeyError] of the reconstruction. *)
Theorem fetch_and_fill_needs_reference
        (rt : runtime) (self : BinanceKlinesFetcher.t) (now : Z)
        (net : nat -> string -> nat -> outcome) (order : list nat) (m : dict pyval) :
  ~ In "ETH-USDT" (pairs self) ->
  fetch_pairs_klines rt self now net order = Ok m ->
  fetch_and_fill_klines rt self now net order = Raise (KeyError "ETH-USDT").
Proof.
  intros Hn H. unfold fetch_and_fill_klines. rewrite H. simpl.
  destruct (fetch_pairs_klines_keys _ _ _ _ _ _ H) as [_ [H2 _]].
  unfold fill_missing_pairs.
  destruct (dict_get m "ETH-USDT") as [v|] eqn:G; [|reflexivity].
  exfalso. apply Hn, H2. apply dict_get_In in G.
  change "ETH-USDT" with (fst ("ETH-USDT", v)). now apply in_map.
Qed.

Lemma fetch_and_fill_needs_reference_witness :
  fetch_and_fill_klines plain_runtime without_reference some_instant one_bar_net [0; 1]%nat
  = Raise (KeyError "ETH-USDT").
Proof.
  eapply (fetch_and_fill_needs_reference plain_runtime without_reference some_instant
            one_bar_net [0; 1]%nat).
  - simpl. intuition discriminate.
  - vm_compute. reflexivity.
Defined.

(** ** The reconstructor: what it leaves alone *)

Lemma fill_pair_cases eth q ms r p r' :
  fill_pair eth q ms r p = Ok r' ->
  (find_donor (split_head "-" p) ms r = None /\ r' = r) \/
  exists k v base_eth,
    find_donor (split_head "-" p) ms r = Some (k, v) /\
    combine_with eth q v = Ok base_eth /\ r' = dict_set r p base_eth.
Proof.
  unfold fill_pair.
  destruct (find_donor (split_head "-" p) ms r) as [[k v]|].
  - destruct (combine_with eth q v) as [b|] eqn:E; simpl; [|discriminate].
    intros [= <-]. right. exists k, v, b. auto.
  - intros [= <-]. now left.
Qed.

Lemma fill_pairs_preserve eth q ms todo : forall r m,
  (forall p, In p todo -> In p (keys r)) ->
  fill_pairs eth q ms r todo = Ok m ->
  keys m = keys r /\ forall k, ~ In k todo -> dict_get m k = dict_get r k.
Proof.
  induction todo as [|p todo IH]; intros r m Hsub; simpl.
  - intros [= <-]. auto.
  - destruct (fill_pair eth q ms r p) as [r'|] eqn:E; simpl; [|discriminate].
    intros H.
    assert (Hr' : keys r' = keys r /\ forall k, k <> p -> dict_get r' k = dict_get r k).
    { apply fill_pair_cases in E.
      destruct E as [[_ ->] | [k [v [b [_ [_ ->]]]]]]; [auto|].
      split; [apply keys_dict_set_present, Hsub; now left|].
      intros k0 Hk. apply dict_get_set_other. congruence. }
    destruct Hr' as [Hk Hg].
    destruct (IH r' m) as [H1 H2]; [|exact H|].
    + intros p' Hp'. rewrite Hk. apply Hsub. now right.
    + split; [congruence|]. intros k Hn. rewrite H2 by tauto.
      apply Hg. intros ->. apply Hn. now left.
Qed.

Lemma missing_incl (r : dict pyval) p : In p (missing r) -> In p (keys r).
Proof.
  intros H. apply In_missing in H. destruct H as [v [H _]].
  change p with (fst (p, v)). now apply in_map.
Qed.

(** X18.  The reconstruction adds and removes no pair, keeps the order of
    the map, and changes no series that was not empty. *)
Theorem reconstruction_keeps_fetched_series (responses m : dict pyval) :
  fill_missing_pairs responses = Ok m ->
  keys m = keys responses /\
  forall k v, dict_get responses k = Some v -> py_truthy v = true ->
              NoDup (keys responses) -> dict_get m k = Some v.
Proof.
  unfold fill_missing_pairs.
  destruct (dict_get responses "ETH-USDT") as [eth|]; [|discriminate].
  destruct (py_len eth) as [q|]; simpl; [|discriminate].
  intros H. apply fill_pairs_preserve in H; [|apply missing_incl].
  destruct H as [H1 H2]. split; [exact H1|].
  intros k v Hg Ht Hnd. rewrite H2; [exact Hg|].
  intros Hin. apply In_missing in Hin. destruct Hin as [w [Hw Hf]].
  apply (In_dict_get _ _ _ Hnd) in Hw. congruence.
Qed.

Lemma reconstruction_keeps_fetched_series_witness :
  keys (dict_set klines_with_gap "ADA-ETH"
          (VList [VList [VFloat 0.05; VFloat 101];
                  VList [VFloat 0.054545455; VFloat 111]]))
  = keys klines_with_gap.
Proof.
  apply (proj1 (reconstruction_keeps_fetched_series klines_with_gap _
                  ltac:(vm_compute; reflexivity))).
Defined.

Lemma find_donor_None base ms (r : dict pyval) :
  find_donor base ms r = None <->
  Forall (fun k => contains base k && negb (mem_string k ms) = false) (keys r).
Proof.
  unfold find_donor. induction r as [|[k v] r IH]; simpl.
  - split; [constructor | reflexivity].
  - destruct (contains base k && negb (mem_string k ms)) eqn:E.
    + split; [discriminate|]. intros H. inversion H; subst. congruence.
    + rewrite IH. split; [now constructor | now inversion 1].
Qed.

Lemma fill_pairs_no_donor eth q ms (r : dict pyval) p todo : forall r0 m,
  keys r0 = keys r ->
  (forall p', In p' todo -> In p' (keys r)) ->
  find_donor (split_head "-" p) ms r = None ->
  fill_pairs eth q ms r0 todo = Ok m ->
  dict_get m p = dict_get r0 p.
Proof.
  induction todo as [|p' todo IH]; intros r0 m Hk Hsub Hnone; simpl.
  - now intros [= <-].
  - destruct (fill_pair eth q ms r0 p') as [r1|] eqn:E; simpl; [|discriminate].
    intros H.
    assert (Hnone0 : find_donor (split_head "-" p) ms r0 = None).
    { apply find_donor_None. rewrite Hk. now apply find_donor_None. }
    assert (Hr1 : keys r1 = keys r /\ dict_get r1 p = dict_get r0 p).
    { apply fill_pair_cases in E.
      destruct E as [[_ ->] | [k [v [b [Hd [_ ->]]]]]]; [auto|].
      split.
      - rewrite keys_dict_set_present; [exact Hk|]. rewrite Hk. apply Hsub. now left.
      - apply dict_get_set_other. intros ->. congruence. }
    destruct Hr1 as [Hk1 Hg]. rewrite <- Hg.
    apply (IH r1 m); auto. intros q' Hq'. apply Hsub. now right.
Qed.

(** X19.  A gap stays a gap when there is no donor: an empty pair for whose
    base asset no other fetched pair qualifies keeps its (empty) entry, and
    nothing is raised for it. *)
Theorem pair_without_donor_stays (responses m : dict pyval) (p : string) :
  fill_missing_pairs responses = Ok m ->
  find_donor (split_head "-" p) (missing responses) responses = None ->
  dict_get m p = dict_get responses p.
Proof.
  unfold fill_missing_pairs.
  destruct (dict_get responses "ETH-USDT") as [eth|]; [|discriminate].
  destruct (py_len eth) as [q|]; simpl; [|discriminate].
  intros H Hnone.
  eapply fill_pairs_no_donor; [reflexivity | apply missing_incl | exact Hnone | exact H].
Qed.

Lemma pair_without_donor_stays_witness :
  dict_get (dict_set partly_repairable "ADA-ETH"
              (VList [VList [VFloat 0.05; VFloat 101];
                      VList [VFloat 0.054545455; VFloat 111]])) "XRP-ETH"
  = dict_get partly_repairable "XRP-ETH".
Proof.
  apply (pair_without_donor_stays partly_repairable).
  - vm_compute. reflexivity.
  - reflexivity.
Defined.

(** ** The reconstructor: the length of a repaired series *)

Lemma synth_rows_length eth rs : forall i xs,
  synth_rows eth i rs = Ok xs -> List.length xs = List.length rs.
Proof.
  induction rs as [|r rs IH]; intros i xs; simpl.
  - now intros [= <-].
  - destruct (synth_row eth i r) as [x|]; simpl; [|discriminate].
    destruct (synth_rows eth (S i) rs) as [xs'|] eqn:E; simpl; [|discriminate].
    intros [= <-]. simpl. f_equal. eapply IH; eauto.
Qed.

Lemma combine_with_length e l b :
  combine_with (VList e) (Z.of_nat (List.length e)) (VList l) = Ok b ->
  exists rows, b = VList rows /\
               List.length rows = Nat.min (List.length l) (List.length e).
Proof.
  unfold combine_with. simpl py_len. simpl bind.
  destruct (Z.of_nat (List.length e) <? Z.of_nat (List.length l)) eqn:E.
  - apply Z.ltb_lt in E. simpl.
    destruct (synth_rows (VList e) 0 (firstn (Z.to_nat (Z.of_nat (List.length e))) l))
      as [xs|] eqn:Es; simpl; [|discriminate].
    intros [= <-]. exists xs. split; [reflexivity|].
    apply synth_rows_length in Es. rewrite Es, Nat2Z.id, length_firstn. lia.
  - apply Z.ltb_ge in E. simpl.
    destruct (synth_rows (VList e) 0 l) as [xs|] eqn:Es; simpl; [|discriminate].
    intros [= <-]. exists xs. split; [reflexivity|].
    apply synth_rows_length in Es. rewrite Es. lia.
Qed.

Lemma find_donor_same_keys base ms (r : dict pyval) : forall r0 k v,
  keys r0 = keys r ->
  find_donor base ms r = Some (k, v) ->
  exists v0, find_donor base ms r0 = Some (k, v0).
Proof.
  unfold find_donor.
  induction r as [|[k1 v1] r IH]; intros [|[k0 v0] r0] k v; simpl; try discriminate.
  intros [= -> Hk].
  destruct (contains base k1 && negb (mem_string k1 ms)).
  - intros [= <- _]. eauto.
  - now apply IH.
Qed.

Lemma find_donor_not_missing base ms (r : dict pyval) k v :
  find_donor base ms r = Some (k, v) -> In (k, v) r /\ ~ In k ms.
Proof.
  unfold find_donor. intros H. apply find_some in H. destruct H as [Hin Hp].
  split; [exact Hin|]. simpl in Hp. apply andb_true_iff in Hp. destruct Hp as [_ Hp].
  apply negb_true_iff in Hp. intros Hk.
  assert (mem_string k ms = true); [|congruence].
  unfold mem_string. apply existsb_exists. exists k. split; [exact Hk|].
  apply String.eqb_refl.
Qed.

Lemma fill_pairs_length e ms (r : dict pyval) p k l todo : forall r0 m,
  NoDup (keys r) -> NoDup todo ->
  keys r0 = keys r ->
  (forall x, ~ In x ms -> dict_get r0 x = dict_get r x) ->
  (forall p', In p' todo -> In p' ms /\ In p' (keys r)) ->
  find_donor (split_head "-" p) ms r = Some (k, VList l) ->
  In p todo ->
  fill_pairs (VList e) (Z.of_nat (List.length e)) ms r0 todo = Ok m ->
  exists rows, dict_get m p = Some (VList rows) /\
               List.length rows = Nat.min (List.length l) (List.length e).
Proof.
  induction todo as [|p' todo IH]; intros r0 m Hnd Hndt Hk Hagree Hsub Hd Hin; [destruct Hin|].
  simpl.
  destruct (fill_pair (VList e) (Z.of_nat (List.length e)) ms r0 p') as [r1|] eqn:E;
    simpl; [|discriminate].
  intros H.
  inversion Hndt as [|? ? Hnotin Hndt']; subst.
  destruct (Hsub p' ltac:(now left)) as [Hp'ms Hp'k].
  assert (Hsub' : forall x, In x todo -> In x (keys r1) ).
  { intros x Hx.
    assert (Hk1 : keys r1 = keys r0).
    { apply fill_pair_cases in E.
      destruct E as [[_ ->] | [? [? [? [_ [_ ->]]]]]]; [reflexivity|].
      apply keys_dict_set_present. rewrite Hk. exact Hp'k. }
    rewrite Hk1, Hk. apply Hsub. now right. }
  destruct Hin as [-> | Hin].
  - (* the pair is repaired now and kept afterwards *)
    destruct (fill_pairs_preserve _ _ _ _ _ _ Hsub' H) as [_ Hkeep].
    rewrite (Hkeep p Hnotin).
    destruct (find_donor_same_keys _ _ _ r0 _ _ Hk Hd) as [v0 Hd0].
    assert (Hv0 : v0 = VList l).
    { destruct (find_donor_not_missing _ _ _ _ _ Hd) as [Hi Hn].
      destruct (find_donor_not_missing _ _ _ _ _ Hd0) as [Hi0 _].
      assert (Hnd0 : NoDup (keys r0)) by now rewrite Hk.
      apply (In_dict_get _ _ _ Hnd) in Hi. apply (In_dict_get _ _ _ Hnd0) in Hi0.
      rewrite (Hagree k Hn) in Hi0. congruence. }
    subst v0.
    apply fill_pair_cases in E.
    destruct E as [[E _] | [k' [v' [b [E [Hc ->]]]]]]; [congruence|].
    rewrite Hd0 in E. injection E as <- <-.
    apply combine_with_length in Hc. destruct Hc as [rows [-> Hlen]].
    exists rows. split; [apply dict_get_set_same | exact Hlen].
  - apply (IH r1 m); auto.
    + apply fill_pair_cases in E.
      destruct E as [[_ ->] | [? [? [? [_ [_ ->]]]]]]; [exact Hk|].
      rewrite keys_dict_set_present; [exact Hk|]. rewrite Hk. exact Hp'k.
    + intros x Hx. rewrite <- (Hagree x Hx).
      apply fill_pair_cases in E.
      destruct E as [[_ ->] | [? [? [? [_ [_ ->]]]]]]; [reflexivity|].
      apply dict_get_set_other. intros ->. contradiction.
    + intros x Hx. apply Hsub. now right.
Qed.

Lemma NoDup_missing (r : dict pyval) : NoDup (keys r) -> NoDup (missing r).
Proof.
  unfold missing, keys. induction r as [|[k v] r IH]; simpl; [constructor|].
  intros Hnd. inversion Hnd as [|? ? Hn Hnd']; subst.
  destruct (negb (py_truthy v)); simpl; [|now apply IH].
  constructor; [|now apply IH].
  intros H. apply Hn. apply in_map_iff in H. destruct H as [[k' v'] [E H]].
  simpl in E. subst k'. apply filter_In in H. destruct H as [H _].
  change k with (fst (k, v')). now apply in_map.
Qed.

(** X20.  A repaired series is never longer than the reference: when the
    reconstruction succeeds, an empty pair that has a donor gets as many
    rows as the shorter of the donor and the reference series. *)
Theorem repaired_series_length (responses m : dict pyval) (p k : string)
        (e l : list pyval) :
  NoDup (keys responses) ->
  dict_get responses "ETH-USDT" = Some (VList e) ->
  In p (missing responses) ->
  find_donor (split_head "-" p) (missing responses) responses = Some (k, VList l) ->
  fill_missing_pairs responses = Ok m ->
  exists rows, dict_get m p = Some (VList rows) /\
               List.length rows = Nat.min (List.length l) (List.length e).
Proof.
  intros Hnd He Hp Hd. unfold fill_missing_pairs. rewrite He. simpl.
  apply (fill_pairs_length e (missing responses) responses p k l); auto.
  - now apply NoDup_missing.
  - intros x Hx. split; [exact Hx | now apply missing_incl].
Qed.

Lemma repaired_series_length_witness :
  exists rows,
    dict_get (dict_set long_donor_map "ADA-ETH" (VList [VList [VFloat 0.05; VFloat 101]]))
             "ADA-ETH" = Some (VList rows) /\
    List.length rows = Nat.min 2 1.
Proof.
  apply (repaired_series_length long_donor_map _ "ADA-ETH" "ADA-USDT"
           [kline 100 101 99 100.5 1700000000999] [ada_usdt_row0; ada_usdt_row1]).
  - unfold long_donor_map, keys. simpl. repeat constructor; simpl; intuition discriminate.
  - reflexivity.
  - simpl. tauto.
  - reflexivity.
  - vm_compute. reflexivity.
Defined.

Lemma earliest_timestamp_request_witness :
  snd (_get_earliest_valid_timestamp plain_runtime (fun _ _ _ => Ok empty_list_200)
         "https://api.binance.com/api" (client VNone None) 0 (VStr "ETHUSDT") (VStr "1d"))
  = Raise IndexError.
Proof.
  apply (proj2 (earliest_timestamp_request plain_runtime (fun _ _ _ => Ok empty_list_200)
                  "https://api.binance.com/api" (client VNone None) 0 "ETHUSDT" "1d"
                  eq_refl eq_refl) empty_list_200).
  - reflexivity.
  - simpl. lia.
  - reflexivity.
Defined.

(** X21.  An answer ends the retries.  When the request number [j] of a
    task, after [j] timeouts, is answered by a body that the projection
    accepts, the task has sent [j + 1] requests and records the projected
    rows. *)
Theorem answer_ends_task
        (rt : runtime) (self : BinanceKlinesFetcher.t) (net : nat -> outcome)
        (pair : string) (j : nat) (body v : pyval) :
  (Z.of_nat j < pair_retries self) -> (j <= 1024)%nat ->
  (forall i, (i < j)%nat -> net i = Timeout) ->
  net j = Response body ->
  normalise rt body = Ok v ->
  snd (get_single_pair rt self net pair) = Ok (dict_set (responses self) pair v) /\
  requests (fst (get_single_pair rt self net pair)) = S j.
Proof.
  intros Hj Hb Ht Hn Hv.
  rewrite get_single_pair_result, get_single_pair_trace.
  destruct (attempt_loop_first_answer net (init_backoff self)
              (Z.to_nat (pair_retries self)) 0%nat j) as [H1 H2]; try lia.
  - exact Ht.
  - simpl. rewrite Hn. discriminate.
  - rewrite H1, H2. simpl. rewrite Hn. simpl. now rewrite Hv.
Qed.

Lemma answer_ends_task_witness :
  snd (get_single_pair plain_runtime window_only answers_second "ADA-USDT")
  = Ok [("ADA-USDT", VList [kline 5 5.2 4.9 5.1 1700000000999])] /\
  requests (fst (get_single_pair plain_runtime window_only answers_second "ADA-USDT")) = 2%nat.
Proof.
  apply (answer_ends_task plain_runtime window_only answers_second "ADA-USDT" 1%nat
           (VList [raw_bar])).
  - simpl. lia.
  - lia.
  - intros i Hi. destruct i; [reflexivity | lia].
  - reflexivity.
  - reflexivity.
Defined.

(** X22.  A reference price of zero aborts the reconstruction: when the
    first row of the reference has a float zero in column 0 and the first
    row of the donor a float in column 0, combining them raises
    [ZeroDivisionError]. *)
Theorem zero_reference_price_raises (e0 r0 : pyval) (e l : list pyval) (a z : float) :
  py_getitem r0 0 = Ok (VFloat a) ->
  py_getitem e0 0 = Ok (VFloat z) ->
  PrimFloat.eqb z 0 = true ->
  combine_with (VList (e0 :: e)) (Z.of_nat (List.length (e0 :: e))) (VList (r0 :: l))
  = Raise ZeroDivisionError.
Proof.
  intros Ha Hz Hzero. unfold combine_with. simpl py_len. simpl bind.
  assert (Hrow : synth_row (VList (e0 :: e)) 0 r0 = Raise ZeroDivisionError).
  { unfold synth_row. rewrite Ha. simpl. rewrite Hz. simpl.
    unfold py_truediv. simpl. now rewrite Hzero. }
  destruct (Z.pos (Pos.of_succ_nat (List.length e)) <? Z.pos (Pos.of_succ_nat (List.length l))).
  - rewrite SuccNat2Pos.id_succ. cbn [firstn bind py_iter synth_rows]. now rewrite Hrow.
  - cbn [bind py_iter synth_rows]. now rewrite Hrow.
Qed.

Lemma zero_reference_price_raises_witness :
  combine_with (VList [kline 0 101 99 100.5 1700000000999]) 1 ada_usdt_rows
  = Raise ZeroDivisionError.
Proof.
  apply (zero_reference_price_raises (kline 0 101 99 100.5 1700000000999) ada_usdt_row0
           [] [ada_usdt_row1] 5 0); reflexivity.
Defined.

(** X23.  [ping] sends a GET to [ping] with no parameter and the timeout
    10.  It answers [True] for a success status with the body [{}] and
    [False] for a success status with another JSON body; an error status is
    not answered by [False]: the API error is raised. *)
Theorem ping_outcomes
        (rt : runtime) (session : string -> string -> dict pyval -> result response)
        (api_url : string) (self : BinanceRestClient.t) (ts : Z) (r : response) :
  sigterm self = false ->
  requests_params self = None ->
  session "get" (api_url ++ "/v3/ping")%string [("timeout", VInt 10)] = Ok r ->
  (200 <= status_code r < 300 -> json r = Some (VDict []) ->
   snd (ping rt session api_url self ts) = Ok true) /\
  (200 <= status_code r < 300 -> forall v, json r = Some v -> v <> VDict [] ->
   snd (ping rt session api_url self ts) = Ok false) /\
  (~ 200 <= status_code r < 300 ->
   snd (ping rt session api_url self ts)
   = Raise (BinanceAPIException_response (status_code r) (text r))).
Proof.
  intros Hlive Hrp Hs.
  assert (E : ping rt session api_url self ts
              = match _handle_response true r with
                | Ok res => (set_response self r,
                             Ok match res with VDict [] => true | _ => false end)
                | Raise e => (set_response self r, Raise e)
                end).
  { destruct self as [sg ak asec rp off lr]. simpl in Hlive, Hrp. subst sg rp.
    unfold ping, _get, call_verb, _request_api, _request, request_kwargs,
      _create_api_uri, API_VERSION.
    simpl. unfold apply_defaults. simpl. simpl in Hs. rewrite Hs.
    now destruct (_handle_response true r). }
  rewrite E. split; [|split].
  - intros Hst Hj. now rewrite (handle_response_status true r Hst _ Hj).
  - intros Hst v Hj Hv. rewrite (handle_response_status true r Hst _ Hj). simpl.
    destruct v as [| | | | | | |[|kv d]]; try reflexivity. contradiction.
  - intros Hst. unfold _handle_response.
    assert (F : (200 <=? status_code r) && (status_code r <? 300) = false) by lia.
    now rewrite F.
Qed.

Lemma ping_outcomes_witness :
  snd (ping plain_runtime (fun _ _ _ => Ok empty_object_400) "https://api.binance.com/api"
         (client VNone None) 0)
  = Raise (BinanceAPIException_response 400 "{}").
Proof.
  apply (proj2 (proj2 (ping_outcomes plain_runtime (fun _ _ _ => Ok empty_object_400)
                         "https://api.binance.com/api" (client VNone None) 0
                         empty_object_400 eq_refl eq_refl eq_refl))).
  simpl. lia.
Defined.
